(** * rag-chatbot-backend: session-isolated ingestion, retrieval and chat

    A shallow embedding of the core of the application:
    - [app/repositories/vector_store.py]   (module [vector_store])
    - [app/repositories/chat_repository.py] (module [chat_repository])
    - [app/repositories/document_repository.py] (module [document_repository])
    - [app/services/chat_service.py]       (module [chat_service])
    - [app/services/document_service.py]   (module [document_service])
    - [app/api/routes/upload.py]           (module [upload])

    The coroutines are run to completion one after the other, so [await] is
    sequencing.  Logging has no effect on the state and is left out. *)

From stdpp Require Import gmap strings list sorting.
From Stdlib Require Import ZArith.

Local Open Scope string_scope.
Local Open Scope list_scope.

(** ** Exceptions and the effect monad

    A Python call either returns or raises, and what it did to the stores
    before raising stays done: the state is threaded through both outcomes. *)

Inductive Exception : Type :=
| ValueError (msg : string)
| HTTPException (status_code : Z) (detail : string)
| BackendError (origin : string).

Inductive Result (A : Type) : Type :=
| Ok (a : A)
| Raise (e : Exception).
Arguments Ok {A} a.
Arguments Raise {A} e.

Definition St (S A : Type) : Type := S → Result A * S.

#[global] Instance St_ret {S} : MRet (St S) := λ A a s, (Ok a, s).

#[global] Instance St_bind {S} : MBind (St S) := λ A B f m s,
  match m s with
  | (Ok a, s') => f a s'
  | (Raise e, s') => (Raise e, s')
  end.

Definition raise {S A} (e : Exception) : St S A := λ s, (Raise e, s).

(** [try: body except Exception as e: handler e] *)
Definition try_except {S A} (body : St S A) (handler : Exception → St S A) : St S A :=
  λ s, match body s with
       | (Ok a, s') => (Ok a, s')
       | (Raise e, s') => handler e s'
       end.

(** [try: body finally: final]; an exception of [final] replaces the outcome. *)
Definition try_finally {S A} (body : St S A) (final : St S unit) : St S A :=
  λ s, match body s with
       | (r, s') => match final s' with
                    | (Ok _, s'') => (r, s'')
                    | (Raise e, s'') => (Raise e, s'')
                    end
       end.

(** ** Values shared by the components *)

(** A [uuid.UUID] is determined by its canonical text, which is what [str]
    returns. *)
Record UUID : Type := mkUUID { str : string }.

#[global] Instance UUID_eq_dec : EqDecision UUID.
Proof. solve_decision. Defined.

Definition nl : string := String (Ascii.ascii_of_nat 10) EmptyString.

(** [sep.join(parts)] *)
Fixpoint join (sep : string) (parts : list string) : string :=
  match parts with
  | [] => EmptyString
  | [p] => p
  | p :: rest => p +:+ sep +:+ join sep rest
  end.

(** [l[-n:]] for [n > 0] *)
Definition last_n {A} (n : nat) (l : list A) : list A := drop (length l - n) l.

(** [langchain.schema]: documents and chat messages. Metadata is a [dict];
    values are kept in the text form pgvector compares them in. *)
Module langchain.
Record Document : Type := mkDocument {
  page_content : string;
  metadata : gmap string string
}.

Inductive BaseMessage : Type :=
| SystemMessage (content : string)
| HumanMessage (content : string)
| AIMessage (content : string).

Inductive Loader : Type :=
| PyPDFLoader (file_path : string)
| TextLoader (file_path : string).
End langchain.
Import langchain.

(** [app/models/document.py]; the column [status] carries the check
    constraint [status IN ('pending','processing','indexed','failed')]. *)
Inductive DocStatus : Type := pending | processing | indexed | failed.

#[global] Instance DocStatus_eq_dec : EqDecision DocStatus.
Proof. solve_decision. Defined.

Module models_document.
Record Document : Type := mkDocument {
  id : UUID;
  session_id : UUID;
  filename : string;
  mime_type : string;
  file_size : nat;
  status : DocStatus
}.
End models_document.

(** [app/models/message.py]; [role IN ('user','assistant','system')]. *)
Inductive Role : Type := user | assistant | system.

#[global] Instance Role_eq_dec : EqDecision Role.
Proof. solve_decision. Defined.

Module models_message.
Record ChatMessage : Type := mkChatMessage {
  id : UUID;
  session_id : UUID;
  role : Role;
  content : string;
  created_at : Z
}.
End models_message.

(** ** The world outside the process

    [Env] fixes how the collaborators behave: which calls raise, what the
    clock, the id generator, the embedding distance, the language model, the
    file loaders and the text splitter answer.  The claims quantify over it. *)
Record Env : Type := mkEnv {
  db_fails : nat → bool;
  vec_fails : nat → bool;
  llm_fails : nat → bool;
  fs_fails : nat → bool;
  uuid4 : nat → UUID;
  now : nat → Z;
  tmp_name : nat → string → string;
  embedding_distance : string → string → Z;
  completion : nat → list BaseMessage → string;
  loader_load : Loader → list Byte.byte → list langchain.Document;
  split_documents : list langchain.Document → list langchain.Document
}.

(** The tables, the pgvector collection, the temporary files, and the number
    of calls each collaborator has served.  [status_log] records every status
    written to a document row, in order: it is what an observer of the row
    sees over time. *)
Record World : Type := mkWorld {
  chat_messages : list models_message.ChatMessage;
  documents : list models_document.Document;
  status_log : list (UUID * DocStatus);
  embeddings : list langchain.Document;
  temp_files : list string;
  llm_requests : list (list BaseMessage);
  db_calls : nat;
  vec_calls : nat;
  llm_calls : nat;
  fs_calls : nat;
  uuid_calls : nat
}.

Definition M (A : Type) : Type := St World A.

Definition tick_db (w : World) : World :=
  mkWorld (chat_messages w) (documents w) (status_log w) (embeddings w)
    (temp_files w) (llm_requests w) (S (db_calls w)) (vec_calls w)
    (llm_calls w) (fs_calls w) (uuid_calls w).

Definition tick_vec (w : World) : World :=
  mkWorld (chat_messages w) (documents w) (status_log w) (embeddings w)
    (temp_files w) (llm_requests w) (db_calls w) (S (vec_calls w))
    (llm_calls w) (fs_calls w) (uuid_calls w).

Definition tick_llm (w : World) : World :=
  mkWorld (chat_messages w) (documents w) (status_log w) (embeddings w)
    (temp_files w) (llm_requests w) (db_calls w) (vec_calls w)
    (S (llm_calls w)) (fs_calls w) (uuid_calls w).

Definition tick_fs (w : World) : World :=
  mkWorld (chat_messages w) (documents w) (status_log w) (embeddings w)
    (temp_files w) (llm_requests w) (db_calls w) (vec_calls w)
    (llm_calls w) (S (fs_calls w)) (uuid_calls w).

Definition tick_uuid (w : World) : World :=
  mkWorld (chat_messages w) (documents w) (status_log w) (embeddings w)
    (temp_files w) (llm_requests w) (db_calls w) (vec_calls w)
    (llm_calls w) (fs_calls w) (S (uuid_calls w)).

Definition set_chat_messages (l : list models_message.ChatMessage) (w : World) : World :=
  mkWorld l (documents w) (status_log w) (embeddings w)
    (temp_files w) (llm_requests w) (db_calls w) (vec_calls w)
    (llm_calls w) (fs_calls w) (uuid_calls w).

Definition set_documents (l : list models_document.Document)
    (log : list (UUID * DocStatus)) (w : World) : World :=
  mkWorld (chat_messages w) l log (embeddings w)
    (temp_files w) (llm_requests w) (db_calls w) (vec_calls w)
    (llm_calls w) (fs_calls w) (uuid_calls w).

Definition set_embeddings (l : list langchain.Document) (w : World) : World :=
  mkWorld (chat_messages w) (documents w) (status_log w) l
    (temp_files w) (llm_requests w) (db_calls w) (vec_calls w)
    (llm_calls w) (fs_calls w) (uuid_calls w).

Definition set_temp_files (l : list string) (w : World) : World :=
  mkWorld (chat_messages w) (documents w) (status_log w) (embeddings w)
    l (llm_requests w) (db_calls w) (vec_calls w)
    (llm_calls w) (fs_calls w) (uuid_calls w).

Definition set_llm_requests (l : list (list BaseMessage)) (w : World) : World :=
  mkWorld (chat_messages w) (documents w) (status_log w) (embeddings w)
    (temp_files w) l (db_calls w) (vec_calls w)
    (llm_calls w) (fs_calls w) (uuid_calls w).

(** ** The pgvector collection behind [langchain_community.vectorstores.PGVector]

    The class belongs to a library, not to the repository.  It is modelled by
    its contract, for an arbitrary embedding distance: a metadata filter
    keeps the rows whose metadata has the filter's value under each filtered
    key, the rows kept are ordered by distance to the query, and at most [k]
    are returned.  Either call may raise instead. *)
Module PGVector.
Section WithEnv.
Context (E : Env).

(** A row passes the filter when each filtered key is present with the
    filter's value. *)
Definition matches (filter_dict : gmap string string) (doc : langchain.Document) : bool :=
  forallb (λ kv, bool_decide (metadata doc !! kv.1 = Some kv.2))
          (map_to_list filter_dict).

Definition closer (query : string) (a b : langchain.Document) : Prop :=
  (embedding_distance E query (page_content a)
     ≤ embedding_distance E query (page_content b))%Z.

#[global] Instance closer_dec query a b : Decision (closer query a b).
Proof. unfold closer. apply _. Defined.

(** [aadd_documents]: embed and insert the batch, or raise. *)
Definition aadd_documents (docs : list langchain.Document) : M unit :=
  λ w, let w1 := tick_vec w in
       if vec_fails E (vec_calls w)
       then (Raise (BackendError "vector store"), w1)
       else (Ok (), set_embeddings (embeddings w ++ docs) w1).

(** [asimilarity_search]: embed the query, rank the rows that pass the
    filter by cosine distance, keep the first [k]. *)
Definition asimilarity_search (query : string) (k : nat)
    (filter_dict : gmap string string) : M (list langchain.Document) :=
  λ w, let w1 := tick_vec w in
       if vec_fails E (vec_calls w)
       then (Raise (BackendError "vector store"), w1)
       else (Ok (take k (merge_sort (closer query)
                           (List.filter (matches filter_dict) (embeddings w)))),
             w1).
End WithEnv.
End PGVector.

(** ** [app/repositories/vector_store.py] *)
Module vector_store.
Section WithEnv.
Context (E : Env).

(** The loop of [add_documents] that validates the batch.  The message of
    the error ends with the [repr] of the offending metadata, left out. *)
Fixpoint validate (documents : list langchain.Document) : M unit :=
  match documents with
  | [] => mret ()
  | doc :: rest =>
      if bool_decide (is_Some (metadata doc !! "session_id"))
      then validate rest
      else raise (ValueError "session_id required in document metadata. ")
  end.

Definition add_documents (documents : list langchain.Document) : M unit :=
  validate documents;;
  PGVector.aadd_documents E documents.

Definition similarity_search (query : string) (session_id : UUID) (k : nat)
    : M (list langchain.Document) :=
  let filter_dict : gmap string string := {[ "session_id" := str session_id ]} in
  try_except
    (results ← PGVector.asimilarity_search E query k filter_dict;
     mret results)
    (λ e, mret []).
End WithEnv.
End vector_store.

(** ** [app/repositories/chat_repository.py] *)
Module chat_repository.
Section WithEnv.
Context (E : Env).

(** One entry of the list [get_history] returns. *)
Record HistoryItem : Type := mkHistoryItem {
  role : Role;
  content : string;
  created_at : Z
}.

(** [self.db.add(message); await self.db.flush()].  [chat_messages] is the
    table as the statements of the request see it.  A flush that raises adds
    no row.  The session then also rolls its transaction back, which discards
    the rows flushed since the transaction began; where a transaction begins
    and commits is fixed in [app/database.py], which is not part of this
    development, so that rollback is not described here.  The properties that
    name the rows a request leaves in the history are stated for runs in
    which no statement raises after an append. *)
Definition add_message (session_id : UUID) (role : Role) (content : string)
    : M models_message.ChatMessage :=
  λ w, let w1 := tick_uuid (tick_db w) in
       if db_fails E (db_calls w)
       then (Raise (BackendError "database"), w1)
       else
         let message :=
           models_message.mkChatMessage (uuid4 E (uuid_calls w)) session_id
             role content (now E (db_calls w)) in
         (Ok message, set_chat_messages (chat_messages w ++ [message]) w1).

(** [ORDER BY created_at DESC] *)
Definition newer_first (a b : models_message.ChatMessage) : Prop :=
  (models_message.created_at b ≤ models_message.created_at a)%Z.

#[global] Instance newer_first_dec a b : Decision (newer_first a b).
Proof. unfold newer_first. apply _. Defined.

Definition of_session (session_id : UUID) (msg : models_message.ChatMessage) : bool :=
  bool_decide (models_message.session_id msg = session_id).

(** The statement of [get_history]: where, order by, limit. *)
Definition select_recent (session_id : UUID) (limit : nat)
    (table : list models_message.ChatMessage) : list models_message.ChatMessage :=
  take limit (merge_sort newer_first (List.filter (of_session session_id) table)).

Definition to_dict (msg : models_message.ChatMessage) : HistoryItem :=
  mkHistoryItem (models_message.role msg) (models_message.content msg)
                (models_message.created_at msg).

Definition get_history (session_id : UUID) (limit : nat) : M (list HistoryItem) :=
  λ w, let w1 := tick_db w in
       if db_fails E (db_calls w)
       then (Raise (BackendError "database"), w1)
       else
         let messages := select_recent session_id limit (chat_messages w) in
         let messages := reverse messages in
         (Ok (to_dict <$> messages), w1).
End WithEnv.
End chat_repository.

(** ** [app/repositories/document_repository.py] *)
Module document_repository.
Section WithEnv.
Context (E : Env).

Definition create_document (session_id : UUID) (filename mime_type : string)
    (file_size : nat) : M models_document.Document :=
  λ w, let w1 := tick_uuid (tick_db w) in
       if db_fails E (db_calls w)
       then (Raise (BackendError "database"), w1)
       else
         let document :=
           models_document.mkDocument (uuid4 E (uuid_calls w)) session_id
             filename mime_type file_size pending in
         (Ok document,
          set_documents (documents w ++ [document])
                        (status_log w ++ [(models_document.id document, pending)]) w1).

Definition set_status (document_id : UUID) (status : DocStatus)
    (row : models_document.Document) : models_document.Document :=
  if bool_decide (models_document.id row = document_id)
  then models_document.mkDocument (models_document.id row)
         (models_document.session_id row) (models_document.filename row)
         (models_document.mime_type row) (models_document.file_size row) status
  else row.

(** [UPDATE documents SET status = :status WHERE id = :document_id]: any
    status may follow any other, the statement checks no transition. *)
Definition update_status (document_id : UUID) (status : DocStatus) : M unit :=
  λ w, let w1 := tick_db w in
       if db_fails E (db_calls w)
       then (Raise (BackendError "database"), w1)
       else (Ok (),
             set_documents (set_status document_id status <$> documents w)
                           (status_log w ++ [(document_id, status)]) w1).
End WithEnv.
End document_repository.

(** ** [app/services/chat_service.py] *)
Module chat_service.
Section WithEnv.
Context (E : Env).

(** [self.llm.ainvoke(messages)], returning [response.content]. *)
Definition ainvoke (messages : list BaseMessage) : M string :=
  λ w, let w1 := set_llm_requests (llm_requests w ++ [messages]) (tick_llm w) in
       if llm_fails E (llm_calls w)
       then (Raise (BackendError "language model"), w1)
       else (Ok (completion E (llm_calls w) messages), w1).

Definition system_content_with (context : string) : string :=
  "You are a helpful AI assistant. Use the following context from uploaded documents to answer the user's question accurately."
  +:+ nl +:+ nl +:+
  "Context from documents:" +:+ nl +:+
  context +:+ nl +:+ nl +:+
  "Instructions:" +:+ nl +:+
  "- Answer based on the provided context when relevant" +:+ nl +:+
  "- If the context doesn't contain the answer, say so" +:+ nl +:+
  "- Be concise and helpful" +:+ nl +:+
  "- Maintain conversation continuity".

Definition system_content_plain : string :=
  "You are a helpful AI assistant. Answer the user's questions concisely and accurately.".

(** The loop body over [history[-6:]]: a turn whose role is neither user
    nor assistant adds nothing. *)
Definition history_message (msg : chat_repository.HistoryItem) : list BaseMessage :=
  match chat_repository.role msg with
  | user => [HumanMessage (chat_repository.content msg)]
  | assistant => [AIMessage (chat_repository.content msg)]
  | system => []
  end.

Definition _build_messages (user_message context : string)
    (history : list chat_repository.HistoryItem) : list BaseMessage :=
  let system_content :=
    match context with
    | EmptyString => system_content_plain
    | _ => system_content_with context
    end in
  [SystemMessage system_content]
    ++ concat (history_message <$> last_n 6 history)
    ++ [HumanMessage user_message].

Definition apology : string :=
  "I apologize, but I'm having trouble processing your request right now. Please try again later.".

Definition fallback_messages (message : string) : list BaseMessage :=
  [SystemMessage "You are a helpful assistant."; HumanMessage message].

Definition _fallback_response (message : string) : M string :=
  try_except
    (let messages := fallback_messages message in
     response ← ainvoke messages;
     mret response)
    (λ e, mret apology).

Definition build_context (relevant_docs : list langchain.Document) : string :=
  match relevant_docs with
  | [] => EmptyString
  | _ => join (nl +:+ nl) (page_content <$> relevant_docs)
  end.

Definition generate_response (session_id : UUID) (user_message : string) : M string :=
  try_except
    (chat_repository.add_message E session_id user user_message;;
     history ← chat_repository.get_history E session_id 10;
     relevant_docs ← vector_store.similarity_search E user_message session_id 4;
     let context := build_context relevant_docs in
     let messages := _build_messages user_message context history in
     assistant_message ← ainvoke messages;
     chat_repository.add_message E session_id assistant assistant_message;;
     mret assistant_message)
    (λ e, _fallback_response user_message).
End WithEnv.
End chat_service.

(** ** [app/services/document_service.py] *)
Module document_service.
Section WithEnv.
Context (E : Env).

(** The local variables of [ingest_document] that its [except] and
    [finally] blocks read. *)
Record Frame : Type := mkFrame {
  document : option models_document.Document;
  temp_file_path : option string
}.

Definition F (A : Type) : Type := St (World * Frame) A.

Definition lift {A} (m : M A) : F A :=
  λ s, match m s.1 with (r, w') => (r, (w', s.2)) end.

Definition locals : F Frame := λ s, (Ok s.2, s).

Definition set_document (d : models_document.Document) : F unit :=
  λ s, (Ok (), (s.1, mkFrame (Some d) (temp_file_path s.2))).

Definition set_temp_file_path (p : string) : F unit :=
  λ s, (Ok (), (s.1, mkFrame (document s.2) (Some p))).

(** Run a body with [document = None] and [temp_file_path = None]. *)
Definition call {A} (body : F A) : M A :=
  λ w, match body (w, mkFrame None None) with (r, s) => (r, s.1) end.

(** [tempfile.NamedTemporaryFile(delete=False, suffix=...)] creates the file
    and opens it; the name is the system's choice for a file with the
    extension of [filename].  From here on the file exists, whatever happens
    to the write. *)
Definition NamedTemporaryFile (filename : string) : M string :=
  λ w, let w1 := tick_fs w in
       if fs_fails E (fs_calls w)
       then (Raise (BackendError "file system"), w1)
       else let name := tmp_name E (fs_calls w) filename in
            (Ok name, set_temp_files (temp_files w ++ [name]) w1).

(** [temp_file.write(file_content)] *)
Definition write (temp_file : string) (file_content : list Byte.byte) : M unit :=
  λ w, let w1 := tick_fs w in
       if fs_fails E (fs_calls w)
       then (Raise (BackendError "file system"), w1)
       else (Ok (), w1).

(** Leaving the [with] block closes the file, also when the block raised;
    the file stays on disk ([delete=False]). *)
Definition close (temp_file : string) : M unit :=
  λ w, let w1 := tick_fs w in
       if fs_fails E (fs_calls w)
       then (Raise (BackendError "file system"), w1)
       else (Ok (), w1).

(** [loader.load()] on the temporary file, which holds [file_content]. *)
Definition load (loader : Loader) (file_content : list Byte.byte)
    : M (list langchain.Document) :=
  λ w, let w1 := tick_fs w in
       if fs_fails E (fs_calls w)
       then (Raise (BackendError "loader"), w1)
       else (Ok (loader_load E loader file_content), w1).

(** [if os.path.exists(path): try: os.unlink(path) except: pass] *)
Definition unlink_quietly (path : string) : M unit :=
  λ w, if bool_decide (path ∈ temp_files w)
       then let w1 := tick_fs w in
            if fs_fails E (fs_calls w)
            then (Ok (), w1)
            else (Ok (), set_temp_files (List.filter (λ p, negb (String.eqb p path)) (temp_files w)) w1)
       else (Ok (), w).

Definition choose_loader (mime_type temp_path : string) : M Loader :=
  if String.eqb mime_type "application/pdf"
  then mret (PyPDFLoader temp_path)
  else if bool_decide (mime_type ∈ ["text/plain"; "text/markdown"])
  then mret (TextLoader temp_path)
  else raise (ValueError ("Unsupported file type: " +:+ mime_type)).

(** [chunk.metadata.update({...})] *)
Definition stamp (session_id document_id : UUID) (filename : string)
    (chunk : langchain.Document) : langchain.Document :=
  langchain.mkDocument (page_content chunk)
    (<["session_id" := str session_id]>
       (<["document_id" := str document_id]>
          (<["filename" := filename]> (metadata chunk)))).

Definition ingest_document (file_content : list Byte.byte) (filename : string)
    (session_id : UUID) (mime_type : string) : M UUID :=
  call
    (try_finally
       (try_except
          (document ← lift (document_repository.create_document E session_id
                              filename mime_type (length file_content));
           set_document document;;
           let document_id := models_document.id document in
           lift (document_repository.update_status E document_id processing);;
           temp_file ← lift (NamedTemporaryFile filename);
           try_finally
             (lift (write temp_file file_content);;
              set_temp_file_path temp_file)
             (lift (close temp_file));;
           (* past the block, [temp_file_path] holds [temp_file.name] *)
           let temp_path := temp_file in
           loader ← lift (choose_loader mime_type temp_path);
           documents ← lift (load loader file_content);
           let chunks := split_documents E documents in
           let chunks := stamp session_id document_id filename <$> chunks in
           lift (vector_store.add_documents E chunks);;
           lift (document_repository.update_status E document_id indexed);;
           mret document_id)
          (λ e,
             frame ← locals;
             match document frame with
             | Some d => lift (document_repository.update_status E
                                 (models_document.id d) failed)
             | None => mret ()
             end;;
             raise e))
       (frame ← locals;
        match temp_file_path frame with
        | Some path => lift (unlink_quietly path)
        | None => mret ()
        end)).
End WithEnv.
End document_service.

(** ** [app/api/routes/upload.py] *)
Module upload.
Section WithEnv.
Context (E : Env).

Record UploadFile : Type := mkUploadFile {
  filename : string;
  content_type : string;
  content : list Byte.byte
}.

Record DocumentResponse : Type := mkDocumentResponse {
  message : string;
  response_filename : string;
  response_session_id : UUID
}.

Definition allowed_types : list string := ["application/pdf"; "text/plain"].

(** The route answers 202 and the scheduled ingestion runs afterwards; what
    the background task returns or raises does not reach the response. *)
Definition upload_document (session_id : UUID) (file : UploadFile) : M DocumentResponse :=
  if bool_decide (content_type file ∈ allowed_types)
  then
    try_except
      (document_service.ingest_document E (content file) (filename file)
         session_id (content_type file);;
       mret ())
      (λ e, mret ());;
    mret (mkDocumentResponse "Document upload accepted. Processing in background."
            (filename file) session_id)
  else
    raise (HTTPException 400
             ("Unsupported file type: " +:+ content_type file
              +:+ ". Allowed: ['application/pdf', 'text/plain']")).
End WithEnv.
End upload.

(** ** Concrete environments and worlds used to run the model *)
Module samples.
Definition healthy : Env :=
  mkEnv (λ _, false) (λ _, false) (λ _, false) (λ _, false)
        (λ n, mkUUID (String (Ascii.ascii_of_nat (65 + n)) EmptyString))
        (λ n, Z.of_nat n)
        (λ n f, "/tmp/" +:+ f)
        (λ q t, Z.of_nat (String.length t))
        (λ n ms, "reply")
        (λ l bs, [langchain.mkDocument "Python programming" ∅])
        (λ ds, ds).


(** The second statement sent to the database raises, the others do not:
    in [ingest_document] that is the update to processing. *)
Definition processing_update_fails : Env :=
  mkEnv (λ n, Nat.eqb n 1) (λ _, false) (λ _, false) (λ _, false)
        (uuid4 healthy) (now healthy) (tmp_name healthy)
        (embedding_distance healthy) (completion healthy)
        (loader_load healthy) (split_documents healthy).

(** The vector backend raises on every call; everything else works. *)
Definition vector_down : Env :=
  mkEnv (λ _, false) (λ _, true) (λ _, false) (λ _, false)
        (uuid4 healthy) (now healthy) (tmp_name healthy)
        (embedding_distance healthy) (completion healthy)
        (loader_load healthy) (split_documents healthy).

(** The vector backend raises on every call and the generation backend on
    its first call only. *)
Definition vector_down_model_flaky : Env :=
  mkEnv (λ _, false) (λ _, true) (λ n, Nat.eqb n 0) (λ _, false)
        (uuid4 healthy) (now healthy) (tmp_name healthy)
        (embedding_distance healthy) (completion healthy)
        (loader_load healthy) (split_documents healthy).

(** Every statement sent to the database raises. *)
Definition database_down : Env :=
  mkEnv (λ _, true) (λ _, false) (λ _, false) (λ _, false)
        (uuid4 healthy) (now healthy) (tmp_name healthy)
        (embedding_distance healthy) (completion healthy)
        (loader_load healthy) (split_documents healthy).

Definition empty_world : World := mkWorld [] [] [] [] [] [] 0 0 0 0 0.

Definition session_a : UUID := mkUUID "0000000a".
Definition session_b : UUID := mkUUID "0000000b".

Definition chunk_a : langchain.Document :=
  langchain.mkDocument "Python programming" {[ "session_id" := str session_a ]}.
Definition chunk_b : langchain.Document :=
  langchain.mkDocument "JavaScript programming" {[ "session_id" := str session_b ]}.

Definition world_b : World := mkWorld [] [] [] [chunk_b] [] [] 0 0 0 0 0.

Definition turn (n : Z) (who : Role) (text : string) : models_message.ChatMessage :=
  models_message.mkChatMessage (mkUUID "m") session_a who text n.

(** Three turns of session A, stored out of order, and one of session B. *)
Definition world_chat : World :=
  mkWorld [turn 3 user "third"; turn 1 user "first";
           models_message.mkChatMessage (mkUUID "m") session_b user "other" 5;
           turn 2 assistant "second"]
          [] [] [] [] [] 0 0 0 0 0.
End samples.

(** ** Notions used to state the properties *)

(** What one step of the pipeline does to the parts of the world the
    pipeline reads or writes: statuses appended to the log, entries appended
    to the collection, calls served by the database, the file system and the
    vector backend. *)
Definition effect (w w1 : World) (log : list (UUID * DocStatus))
    (added : list langchain.Document) (db fs vec : nat) : Prop :=
  status_log w1 = status_log w ++ log ∧
  embeddings w1 = embeddings w ++ added ∧
  db_calls w1 = db + db_calls w ∧
  fs_calls w1 = fs + fs_calls w ∧
  vec_calls w1 = vec + vec_calls w.

(** The outcome of [ingest_document] as a decision tree over the behaviour
    of the collaborators: the result, the statuses written (all to the row
    the run created) and the entries added to the collection.  The file
    system serves the creation of the temporary file, the write, the close
    and the loader, in this order.  Lemma [ingest_document_run] proves that
    the pipeline follows it. *)
Definition ingest_outcome (E : Env) (file_content : list Byte.byte)
    (filename : string) (session_id : UUID) (mime_type : string) (w : World)
    : Result UUID * list DocStatus * list langchain.Document :=
  let n := db_calls w in
  let document_id := uuid4 E (uuid_calls w) in
  let temp_path := tmp_name E (fs_calls w) filename in
  let chunks loader :=
    document_service.stamp session_id document_id filename
      <$> split_documents E (loader_load E loader file_content) in
  (* the [except] block, entered with [e] when [k] statements were sent *)
  let handled (e : Exception) (k : nat) (log : list DocStatus)
      (added : list langchain.Document) :=
    if db_fails E k then (Raise (BackendError "database"), log, added)
    else (Raise e, log ++ [failed], added) in
  let indexing loader :=
    if fs_fails E (S (S (S (fs_calls w))))
    then handled (BackendError "loader") (S (S n)) [pending; processing] []
    else if vec_fails E (vec_calls w)
    then handled (BackendError "vector store") (S (S n)) [pending; processing] []
    else if db_fails E (S (S n))
    then handled (BackendError "database") (S (S (S n))) [pending; processing]
                 (chunks loader)
    else (Ok document_id, [pending; processing; indexed], chunks loader) in
  if db_fails E n then (Raise (BackendError "database"), [], [])
  else if db_fails E (S n)
  then handled (BackendError "database") (S (S n)) [pending] []
  else if fs_fails E (fs_calls w)
  then handled (BackendError "file system") (S (S n)) [pending; processing] []
  else if fs_fails E (S (fs_calls w))
  then handled (BackendError "file system") (S (S n)) [pending; processing] []
  else if fs_fails E (S (S (fs_calls w)))
  then handled (BackendError "file system") (S (S n)) [pending; processing] []
  else if String.eqb mime_type "application/pdf"
  then indexing (PyPDFLoader temp_path)
  else if bool_decide (mime_type ∈ ["text/plain"; "text/markdown"])
  then indexing (TextLoader temp_path)
  else handled (ValueError ("Unsupported file type: " +:+ mime_type)) (S (S n))
               [pending; processing] [].

(** The spec's notion of an entry that carries a non-empty session id. *)
Definition has_nonempty_session_id (d : langchain.Document) : Prop :=
  ∃ s, metadata d !! "session_id" = Some s ∧ s ≠ EmptyString.



(** The statuses one run of [ingest_document] writes, in order, with the id
    of the row each was written to. *)
Definition ingest_trace (E : Env) (file_content : list Byte.byte)
    (filename : string) (session_id : UUID) (mime_type : string) (w : World)
    : list (UUID * DocStatus) :=
  drop (length (status_log w))
       (status_log (document_service.ingest_document E file_content filename
                      session_id mime_type w).2).

(** The lifecycle of the spec: a prefix of pending, processing, then indexed
    or failed. *)
Definition lifecycle_prefix (statuses : list DocStatus) : Prop :=
  statuses `prefix_of` [pending; processing; indexed] ∨
  statuses `prefix_of` [pending; processing; failed].

(** ** [app/schemas/chat.py] and [app/api/routes/chat.py] *)
Module schemas_chat.
Module ChatRequest.
Record t : Type := mk { message : string }.
End ChatRequest.
Module ChatResponse.
Record t : Type := mk { session_id : UUID; message : string }.
End ChatResponse.
End schemas_chat.

Module chat_route.
Section WithEnv.
Context (E : Env).
(** [str(e)]: the text the interpreter gives an exception. *)
Context (exception_text : Exception → string).

Definition chat (session_id : UUID) (request : schemas_chat.ChatRequest.t)
    : M schemas_chat.ChatResponse.t :=
  try_except
    (response_message ← chat_service.generate_response E session_id
                          (schemas_chat.ChatRequest.message request);
     mret (schemas_chat.ChatResponse.mk session_id response_message))
    (λ e, raise (HTTPException 500
                   ("Chat generation failed: " +:+ exception_text e))).
End WithEnv.
End chat_route.

(** ** [app/api/dependencies.py]: the repository singleton *)
Module dependencies.
Section WithRepository.
(** [VectorStoreRepository()] opens the embedding client and the pgvector
    collection; the n-th construction returns an object or raises. *)
Context {Repository : Type} (VectorStoreRepository : nat → Result Repository).

(** The module global [_vector_repo], and how many constructions were
    attempted. *)
Record Globals : Type := mkGlobals {
  _vector_repo : option Repository;
  constructions : nat
}.

Definition get_vector_repo : St Globals Repository :=
  λ g, match _vector_repo g with
       | None =>
           match VectorStoreRepository (constructions g) with
           | Ok repo => (Ok repo, mkGlobals (Some repo) (S (constructions g)))
           | Raise e => (Raise e, mkGlobals None (S (constructions g)))
           end
       | Some repo => (Ok repo, g)
       end.
End WithRepository.
End dependencies.

(** ** Further environments *)
Module more_samples.
(** The clock of the database is ahead of every stored message. *)
Definition late_clock : Env :=
  mkEnv (λ _, false) (λ _, false) (λ _, false) (λ _, false)
        (uuid4 samples.healthy) (λ n, 100 + Z.of_nat n)%Z
        (tmp_name samples.healthy) (embedding_distance samples.healthy)
        (completion samples.healthy) (loader_load samples.healthy)
        (split_documents samples.healthy).

(** The generation backend raises on every call; everything else works. *)
Definition model_down : Env :=
  mkEnv (λ _, false) (λ _, false) (λ _, true) (λ _, false)
        (uuid4 samples.healthy) (now samples.healthy)
        (tmp_name samples.healthy) (embedding_distance samples.healthy)
        (completion samples.healthy) (loader_load samples.healthy)
        (split_documents samples.healthy).

(** A document table with two rows. *)
Definition world_docs : World :=
  mkWorld []
    [models_document.mkDocument (mkUUID "d1") samples.session_a "a.txt"
       "text/plain" 3 processing;
     models_document.mkDocument (mkUUID "d2") samples.session_b "b.pdf"
       "application/pdf" 9 pending]
    [] [] [] [] 0 0 0 0 0.

(** The third statement sent to the database raises, the others do not: in
    [ingest_document] that is the update to indexed. *)
Definition indexed_update_fails : Env :=
  mkEnv (λ n, Nat.eqb n 2) (λ _, false) (λ _, false) (λ _, false)
        (uuid4 samples.healthy) (now samples.healthy)
        (tmp_name samples.healthy) (embedding_distance samples.healthy)
        (completion samples.healthy) (loader_load samples.healthy)
        (split_documents samples.healthy).

(** The second call served by the file system raises, the others do not: in
    [ingest_document] that is the write to the temporary file. *)
Definition temp_write_fails : Env :=
  mkEnv (λ _, false) (λ _, false) (λ _, false) (λ n, Nat.eqb n 1)
        (uuid4 samples.healthy) (now samples.healthy)
        (tmp_name samples.healthy) (embedding_distance samples.healthy)
        (completion samples.healthy) (loader_load samples.healthy)
        (split_documents samples.healthy).
End more_samples.

(** ** Further notions *)

(** The three declared types [ingest_document] has a loader for. *)
Definition supported_type (mime_type : string) : Prop :=
  mime_type ∈ ["application/pdf"; "text/plain"; "text/markdown"].

(** The steps of [ingest_document] up to and including the insert into the
    collection all go through: the record, the update to processing, the
    creation, the write and the close of the temporary file, the type check,
    the loader and the insert. *)
Definition reaches_index (E : Env) (mime_type : string) (w : World) : Prop :=
  db_fails E (db_calls w) = false ∧
  db_fails E (S (db_calls w)) = false ∧
  fs_fails E (fs_calls w) = false ∧
  fs_fails E (S (fs_calls w)) = false ∧
  fs_fails E (S (S (fs_calls w))) = false ∧
  supported_type mime_type ∧
  fs_fails E (S (S (S (fs_calls w)))) = false ∧
  vec_fails E (vec_calls w) = false.

(** Every step of [ingest_document] goes through, the update to indexed
    included. *)
Definition every_step_succeeds (E : Env) (mime_type : string) (w : World) : Prop :=
  reaches_index E mime_type w ∧ db_fails E (S (S (db_calls w))) = false.

(** The call served by the file system for the removal of the temporary
    file in the [finally] block, when the write went through: the creation,
    the write and the close come before it, and so does the loader when the
    close went through and the type has one. *)
Definition unlink_call (E : Env) (mime_type : string) (w : World) : nat :=
  if fs_fails E (S (S (fs_calls w))) then S (S (S (fs_calls w)))
  else if String.eqb mime_type "application/pdf" then S (S (S (S (fs_calls w))))
  else if bool_decide (mime_type ∈ ["text/plain"; "text/markdown"])
  then S (S (S (S (fs_calls w))))
  else S (S (S (fs_calls w))).

(** The loader [ingest_document] picks for a supported type. *)
Definition loader_for (E : Env) (filename mime_type : string) (w : World) : Loader :=
  if String.eqb mime_type "application/pdf"
  then PyPDFLoader (tmp_name E (fs_calls w) filename)
  else TextLoader (tmp_name E (fs_calls w) filename).

(** The batch [ingest_document] hands to the gateway. *)
Definition stamped_chunks (E : Env) (file_content : list Byte.byte)
    (filename : string) (session_id : UUID) (mime_type : string) (w : World)
    : list langchain.Document :=
  document_service.stamp session_id (uuid4 E (uuid_calls w)) filename
    <$> split_documents E
          (loader_load E (loader_for E filename mime_type w) file_content).

(** * Properties *)

Lemma str_inj (a b : UUID) : str a = str b → a = b.
Proof. destruct a, b; simpl; congruence. Qed.

(** ** The gateway: [vector_store.py] *)

Lemma matches_session (s : string) (doc : langchain.Document) :
  PGVector.matches {[ "session_id" := s ]} doc = true ↔
  metadata doc !! "session_id" = Some s.
Proof.
  unfold PGVector.matches. rewrite map_to_list_singleton. simpl.
  rewrite andb_true_r. apply bool_decide_eq_true.
Qed.

Lemma filter_matches_other (s : string) (docs : list langchain.Document) :
  Forall (λ d, metadata d !! "session_id" ≠ Some s) docs →
  List.filter (PGVector.matches {[ "session_id" := s ]}) docs = [].
Proof.
  induction 1 as [|d docs Hd _ IH]; simpl; [done|].
  destruct (PGVector.matches _ d) eqn:Hm; [|done].
  apply matches_session in Hm. done.
Qed.

Lemma ranked_elem_of E query k f (pool : list langchain.Document) doc :
  doc ∈ take k (merge_sort (PGVector.closer E query) (List.filter f pool)) →
  f doc = true ∧ doc ∈ pool.
Proof.
  intros Hin. apply subseteq_take in Hin.
  rewrite merge_sort_Permutation in Hin.
  apply list_elem_of_In, filter_In in Hin as [Hin Hf].
  split; [done|]. by apply list_elem_of_In.
Qed.

Lemma validate_spec (docs : list langchain.Document) (w : World) :
  vector_store.validate docs w =
    if forallb (λ d, bool_decide (is_Some (metadata d !! "session_id"))) docs
    then (Ok (), w)
    else (Raise (ValueError "session_id required in document metadata. "), w).
Proof.
  induction docs as [|d docs IH]; simpl; [done|].
  destruct (bool_decide _); simpl; [apply IH | done].
Qed.

Lemma add_documents_ok E docs w w1 :
  vector_store.add_documents E docs w = (Ok (), w1) →
  embeddings w1 = embeddings w ++ docs ∧ vec_calls w1 = S (vec_calls w).
Proof.
  unfold vector_store.add_documents, mbind, St_bind.
  rewrite validate_spec. destruct (forallb _ docs); [|done].
  unfold PGVector.aadd_documents.
  destruct (vec_fails E (vec_calls w)); [done|].
  intros [= <-]. done.
Qed.

Lemma similarity_search_run E query session_id k w :
  vector_store.similarity_search E query session_id k w =
    (Ok (if vec_fails E (vec_calls w) then []
         else take k (merge_sort (PGVector.closer E query)
                        (List.filter (PGVector.matches {[ "session_id" := str session_id ]})
                                     (embeddings w)))),
     tick_vec w).
Proof.
  unfold vector_store.similarity_search, try_except, mbind, St_bind,
    PGVector.asimilarity_search.
  by destruct (vec_fails E (vec_calls w)).
Qed.

(** C1. Session isolation of the query operation.  For distinct sessions [A]
    and [B], every entry returned by [similarity_search query B k] carries
    [B]'s id under the metadata key [session_id], so none carries [A]'s; and
    indexing a batch stamped with [A]'s id leaves what the same query returns
    for [B] unchanged, whatever the query text, [k], the ranking, and the
    previous content of the collection. *)
Theorem C1_session_isolation (E : Env) (A B : UUID) (query : string) (k : nat)
    (batch_a : list langchain.Document) (w : World) :
  A ≠ B →
  Forall (λ d, metadata d !! "session_id" = Some (str A)) batch_a →
  (∃ results,
      (vector_store.similarity_search E query B k w).1 = Ok results ∧
      Forall (λ d, metadata d !! "session_id" = Some (str B) ∧
                   metadata d !! "session_id" ≠ Some (str A)) results) ∧
  (∀ w1,
      vector_store.add_documents E batch_a w = (Ok (), w1) →
      vec_fails E (vec_calls w1) = vec_fails E (vec_calls w) →
      (vector_store.similarity_search E query B k w1).1 =
      (vector_store.similarity_search E query B k w).1).
Proof.
  intros Hne Hbatch. split.
  - rewrite similarity_search_run. eexists; split; [done|].
    destruct (vec_fails E (vec_calls w)); [constructor|].
    apply Forall_forall. intros d Hd.
    apply ranked_elem_of in Hd as [Hm _]. apply matches_session in Hm.
    split; [done|]. rewrite Hm. intros [= Heq]. by apply Hne, str_inj.
  - intros w1 Hadd Hsame. rewrite !similarity_search_run. simpl.
    apply add_documents_ok in Hadd as [Hemb _].
    rewrite Hsame, Hemb, List.filter_app.
    rewrite (filter_matches_other (str B) batch_a), app_nil_r; [done|].
    eapply Forall_impl; [exact Hbatch|]. simpl. intros d Hd. rewrite Hd.
    intros [= Heq]. by apply Hne, str_inj.
Qed.

Lemma C1_session_isolation_witness :
  (∃ results,
      (vector_store.similarity_search samples.healthy "What language is discussed?"
         samples.session_b 4 samples.world_b).1 = Ok results ∧
      Forall (λ d, metadata d !! "session_id" = Some (str samples.session_b) ∧
                   metadata d !! "session_id" ≠ Some (str samples.session_a)) results) ∧
  (∀ w1,
      vector_store.add_documents samples.healthy [samples.chunk_a] samples.world_b
        = (Ok (), w1) →
      vec_fails samples.healthy (vec_calls w1)
        = vec_fails samples.healthy (vec_calls samples.world_b) →
      (vector_store.similarity_search samples.healthy "What language is discussed?"
         samples.session_b 4 w1).1 =
      (vector_store.similarity_search samples.healthy "What language is discussed?"
         samples.session_b 4 samples.world_b).1).
Proof.
  apply (C1_session_isolation samples.healthy samples.session_a samples.session_b
           "What language is discussed?" 4 [samples.chunk_a] samples.world_b).
  - discriminate.
  - repeat constructor.
Defined.

(** C2, as stated, fails: a batch whose only entry has the empty string as
    session id is accepted and stored. *)
Lemma C2_empty_session_id_accepted :
  ¬ (∀ (E : Env) (docs : list langchain.Document) (w : World),
        (∃ d, d ∈ docs ∧ ¬ has_nonempty_session_id d) →
        ∃ e w', vector_store.add_documents E docs w = (Raise e, w') ∧
                embeddings w' = embeddings w).
Proof.
  intros H.
  destruct (H samples.healthy
              [langchain.mkDocument "text" {[ "session_id" := EmptyString ]}]
              samples.empty_world) as (e & w' & Hrun & _).
  - eexists; split; [apply list_elem_of_here|].
    intros (s & Hs & Hne). simpl in Hs. rewrite lookup_singleton_eq in Hs.
    by injection Hs as <-.
  - vm_compute in Hrun. discriminate.
Qed.

(** C2, amended.  [add_documents] checks that the key [session_id] is present
    in every entry's metadata, whatever its value.  If some entry lacks the
    key the call raises [ValueError] and leaves the whole state as it was; if
    every entry has the key and the backend's insert does not raise, the call
    returns and the collection gains exactly the batch, in order; if the
    backend raises, the error propagates and nothing is stored. *)
Theorem C2_add_documents_all_or_nothing (E : Env)
    (docs : list langchain.Document) (w : World) :
  ((∃ d, d ∈ docs ∧ metadata d !! "session_id" = None) →
     ∃ msg, vector_store.add_documents E docs w = (Raise (ValueError msg), w)) ∧
  ((∀ d, d ∈ docs → is_Some (metadata d !! "session_id")) →
     ∃ w', (vector_store.add_documents E docs w).2 = w' ∧
       if vec_fails E (vec_calls w)
       then ∃ e, (vector_store.add_documents E docs w).1 = Raise e ∧
                 embeddings w' = embeddings w
       else (vector_store.add_documents E docs w).1 = Ok () ∧
            embeddings w' = embeddings w ++ docs).
Proof.
  unfold vector_store.add_documents, mbind, St_bind.
  rewrite validate_spec. split.
  - intros (d & Hd & Hnone).
    assert (forallb (λ d, bool_decide (is_Some (metadata d !! "session_id"))) docs
            = false) as ->; [|by eexists].
    apply not_true_is_false. rewrite forallb_forall. intros Hall.
    specialize (Hall d (proj1 (list_elem_of_In _ _) Hd)).
    apply bool_decide_eq_true in Hall. rewrite Hnone in Hall.
    by destruct Hall.
  - intros Hall.
    assert (forallb (λ d, bool_decide (is_Some (metadata d !! "session_id"))) docs
            = true) as ->.
    { apply forallb_forall. intros d Hd. apply bool_decide_eq_true, Hall.
      by apply list_elem_of_In. }
    unfold PGVector.aadd_documents. eexists; split; [done|].
    destruct (vec_fails E (vec_calls w)); simpl; eauto.
Qed.

Lemma C2_add_documents_all_or_nothing_witness :
  (∃ msg, vector_store.add_documents samples.healthy
            [samples.chunk_a; langchain.mkDocument "stray" ∅] samples.world_b
          = (Raise (ValueError msg), samples.world_b)) ∧
  (∃ w', (vector_store.add_documents samples.healthy [samples.chunk_a] samples.world_b).2 = w' ∧
         (vector_store.add_documents samples.healthy [samples.chunk_a] samples.world_b).1 = Ok () ∧
         embeddings w' = [samples.chunk_b; samples.chunk_a]).
Proof.
  split.
  - apply (proj1 (C2_add_documents_all_or_nothing samples.healthy
                    [samples.chunk_a; langchain.mkDocument "stray" ∅] samples.world_b)).
    exists (langchain.mkDocument "stray" ∅). split; [|reflexivity].
    apply list_elem_of_further, list_elem_of_here.
  - apply (proj2 (C2_add_documents_all_or_nothing samples.healthy
                    [samples.chunk_a] samples.world_b)).
    intros d Hd. apply list_elem_of_singleton in Hd as ->.
    eexists. apply lookup_singleton_eq.
Defined.

(** C8. When the backend call of the query operation raises, whatever the
    error, [similarity_search] returns the empty list and raises nothing. *)
Theorem C8_search_failure_is_empty (E : Env) (query : string) (session_id : UUID)
    (k : nat) (w w1 : World) (e : Exception) :
  PGVector.asimilarity_search E query k {[ "session_id" := str session_id ]} w
    = (Raise e, w1) →
  vector_store.similarity_search E query session_id k w = (Ok [], w1).
Proof.
  intros Hraise.
  unfold vector_store.similarity_search, try_except, mbind, St_bind.
  by rewrite Hraise.
Qed.

(** ** The history store: [chat_repository.py] *)

#[global] Instance newer_first_total : Total chat_repository.newer_first.
Proof. intros a b. unfold chat_repository.newer_first. lia. Qed.

#[global] Instance newer_first_transitive : Transitive chat_repository.newer_first.
Proof. intros a b c. unfold chat_repository.newer_first. lia. Qed.

Lemma select_recent_split (session_id : UUID) (limit : nat)
    (table : list models_message.ChatMessage) :
  ∃ older,
    StronglySorted chat_repository.newer_first
      (chat_repository.select_recent session_id limit table ++ older) ∧
    chat_repository.select_recent session_id limit table ++ older
      ≡ₚ List.filter (chat_repository.of_session session_id) table.
Proof.
  unfold chat_repository.select_recent.
  set (sorted := merge_sort _ _).
  exists (drop limit sorted). rewrite take_drop. split.
  - apply StronglySorted_merge_sort; apply _.
  - apply merge_sort_Permutation.
Qed.

Lemma filter_of_session (session_id : UUID)
    (table : list models_message.ChatMessage) :
  List.filter (chat_repository.of_session session_id) table
    = filter (λ msg, models_message.session_id msg = session_id) table.
Proof.
  induction table as [|msg table IH]; [done|].
  rewrite filter_cons. cbn [List.filter]. rewrite IH.
  unfold chat_repository.of_session.
  by destruct (decide (models_message.session_id msg = session_id));
    [rewrite bool_decide_eq_true_2 | rewrite bool_decide_eq_false_2].
Qed.

Lemma to_dict_fields (messages : list models_message.ChatMessage) :
  Forall2 (λ item msg,
             chat_repository.role item = models_message.role msg ∧
             chat_repository.content item = models_message.content msg ∧
             chat_repository.created_at item = models_message.created_at msg)
          (chat_repository.to_dict <$> messages) messages.
Proof.
  apply Forall2_fmap_l, Forall_Forall2_diag, Forall_true. by intros msg.
Qed.

(** C9. When the read succeeds, [get_history session limit] returns the
    session's messages with the latest creation times, oldest of the window
    first: each item carries the role, the content and the creation time of
    one stored message of the session (the window); the list is in
    non-decreasing [created_at] order; its length is [min limit n] for [n]
    the number of stored messages whose session id is the one asked for; and
    every message of the session left out is no newer than any message
    returned. *)
Theorem C9_history_window (E : Env) (session_id : UUID) (limit : nat) (w : World) :
  db_fails E (db_calls w) = false →
  let stored := filter (λ msg, models_message.session_id msg = session_id)
                       (chat_messages w) in
  ∃ history window older,
    (chat_repository.get_history E session_id limit w).1 = Ok history ∧
    Forall2 (λ item msg,
               chat_repository.role item = models_message.role msg ∧
               chat_repository.content item = models_message.content msg ∧
               chat_repository.created_at item = models_message.created_at msg)
            history window ∧
    Sorted (λ a b, (chat_repository.created_at a ≤ chat_repository.created_at b)%Z)
           history ∧
    length history = min limit (length stored) ∧
    window ++ older ≡ₚ stored ∧
    (∀ x y, x ∈ older → y ∈ window →
            (models_message.created_at x ≤ models_message.created_at y)%Z).
Proof.
  intros Hdb stored. unfold chat_repository.get_history. rewrite Hdb. simpl.
  destruct (select_recent_split session_id limit (chat_messages w))
    as (older & Hsorted & Hperm).
  rewrite filter_of_session in Hperm. fold stored in Hperm.
  set (recent := chat_repository.select_recent session_id limit (chat_messages w)) in *.
  exists (chat_repository.to_dict <$> reverse recent), (reverse recent), older.
  split_and!; try done.
  - apply to_dict_fields.
  - apply (Sorted_fmap _ (flip chat_repository.newer_first)); [by intros x y|].
    apply Sorted_reverse, StronglySorted_Sorted.
    by eapply StronglySorted_app_1_l.
  - rewrite length_fmap, length_reverse. unfold recent, chat_repository.select_recent.
    rewrite length_take, (Permutation_length (merge_sort_Permutation _ _)).
    by rewrite filter_of_session.
  - by rewrite reverse_Permutation.
  - intros x y Hx Hy. rewrite elem_of_reverse in Hy.
    exact (StronglySorted_app_1_elem_of _ _ _ _ _ Hsorted Hy Hx).
Qed.

(** ** The orchestrator: [chat_service.py] *)

Lemma fallback_response_run E message w :
  chat_service._fallback_response E message w =
    (Ok (if llm_fails E (llm_calls w) then chat_service.apology
         else completion E (llm_calls w) (chat_service.fallback_messages message)),
     set_llm_requests (llm_requests w ++ [chat_service.fallback_messages message])
                      (tick_llm w)).
Proof.
  unfold chat_service._fallback_response, try_except, mbind, St_bind,
    chat_service.ainvoke.
  by destruct (llm_fails E (llm_calls w)).
Qed.

Ltac run_chat H :=
  unfold chat_service.generate_response, try_except, mbind, St_bind,
    chat_repository.add_message, chat_repository.get_history,
    chat_service.ainvoke in H;
  repeat (rewrite ?similarity_search_run, ?fallback_response_run in H;
          cbn [db_calls llm_calls vec_calls uuid_calls chat_messages llm_requests
               tick_db tick_uuid tick_vec tick_llm
               set_chat_messages set_llm_requests] in H).

Ltac chat_cases H :=
  run_chat H;
  repeat match type of H with
         | context [if db_fails ?E ?n then _ else _] =>
             destruct (db_fails E n) eqn:?; run_chat H
         | context [if llm_fails ?E ?n then _ else _] =>
             destruct (llm_fails E n) eqn:?; run_chat H
         end;
  injection H as <- <-.

(** C10. [generate_response] always returns a string: for every session,
    message, state of the stores and behaviour of the collaborators the
    outcome is a value, never an exception.  When the append of the user
    message itself raises, the history is left as it was and the caller gets
    the reply of the fallback generation call, or the fixed apology when that
    call raises too. *)
Theorem C10_generate_response_total (E : Env) (session_id : UUID)
    (user_message : string) (w : World) :
  ∃ reply w',
    chat_service.generate_response E session_id user_message w = (Ok reply, w') ∧
    (db_fails E (db_calls w) = true →
       chat_messages w' = chat_messages w ∧
       reply = if llm_fails E (llm_calls w) then chat_service.apology
               else completion E (llm_calls w)
                      (chat_service.fallback_messages user_message)).
Proof.
  destruct (chat_service.generate_response E session_id user_message w)
    as [r w'] eqn:Hrun.
  chat_cases Hrun; eexists _, _; (split; [reflexivity|]); intros Hf;
    try discriminate Hf; split; reflexivity.
Qed.



Lemma select_recent_first_turn (session_id : UUID)
    (table : list models_message.ChatMessage) (msg : models_message.ChatMessage) :
  List.filter (chat_repository.of_session session_id) table = [] →
  models_message.session_id msg = session_id →
  chat_repository.select_recent session_id 10 (table ++ [msg]) = [msg].
Proof.
  intros Hnone Hmsg. unfold chat_repository.select_recent.
  rewrite List.filter_app, Hnone. simpl.
  unfold chat_repository.of_session. by rewrite bool_decide_eq_true_2.
Qed.

(** C3, on the code.  On the first turn of a session (the appended user
    message is the session's only message) the first request sent to the
    generation backend is the instruction followed by the user message
    twice: once as the history read after the append returned it, once as
    the current message.  The history part does not exclude the message just
    appended. *)
Theorem C3_current_message_sent_twice (E : Env) (session_id : UUID)
    (user_message : string) (w : World) :
  db_fails E (db_calls w) = false →
  db_fails E (S (db_calls w)) = false →
  List.filter (chat_repository.of_session session_id) (chat_messages w) = [] →
  ∃ instruction later,
    llm_requests (chat_service.generate_response E session_id user_message w).2
      = llm_requests w
          ++ [SystemMessage instruction; HumanMessage user_message;
              HumanMessage user_message] :: later.
Proof.
  intros Hadd Hread Hfirst.
  destruct (chat_service.generate_response E session_id user_message w)
    as [r w'] eqn:Hrun.
  run_chat Hrun. rewrite Hadd in Hrun. run_chat Hrun. rewrite Hread in Hrun.
  run_chat Hrun.
  rewrite select_recent_first_turn in Hrun by done.
  chat_cases Hrun;
    cbn [snd llm_requests set_llm_requests tick_llm set_chat_messages tick_db tick_uuid];
    rewrite <- ?app_assoc; eexists _, _; reflexivity.
Qed.

Lemma C3_current_message_sent_twice_witness :
  ∃ instruction later,
    llm_requests (chat_service.generate_response samples.healthy samples.session_a
                    "What language is discussed?" samples.world_b).2
      = llm_requests samples.world_b
          ++ [SystemMessage instruction;
              HumanMessage "What language is discussed?";
              HumanMessage "What language is discussed?"] :: later.
Proof.
  apply (C3_current_message_sent_twice samples.healthy samples.session_a
           "What language is discussed?" samples.world_b); reflexivity.
Defined.

(** ** The ingestion pipeline: [document_service.py] *)

Lemma stamped_have_session_id session_id document_id filename
    (chunks : list langchain.Document) :
  forallb (λ d, bool_decide (is_Some (metadata d !! "session_id")))
          (document_service.stamp session_id document_id filename <$> chunks) = true.
Proof.
  apply forallb_forall. intros d Hd.
  apply list_elem_of_In, list_elem_of_fmap in Hd as (c & -> & _).
  apply bool_decide_eq_true. eexists. apply lookup_insert_eq.
Qed.

Lemma create_document_spec E session_id filename mime_type file_size w :
  ∃ w1,
    document_repository.create_document E session_id filename mime_type file_size w
      = (if db_fails E (db_calls w) then Raise (BackendError "database")
         else Ok (models_document.mkDocument (uuid4 E (uuid_calls w)) session_id
                    filename mime_type file_size pending), w1) ∧
    effect w w1 (if db_fails E (db_calls w) then []
                 else [(uuid4 E (uuid_calls w), pending)]) [] 1 0 0.
Proof.
  unfold document_repository.create_document, effect.
  destruct (db_fails E (db_calls w)); eexists; (split; [reflexivity|]);
    simpl; by rewrite ?app_nil_r.
Qed.

Lemma update_status_spec E document_id status w :
  ∃ w1,
    document_repository.update_status E document_id status w
      = (if db_fails E (db_calls w) then Raise (BackendError "database")
         else Ok (), w1) ∧
    effect w w1 (if db_fails E (db_calls w) then [] else [(document_id, status)])
           [] 1 0 0.
Proof.
  unfold document_repository.update_status, effect.
  destruct (db_fails E (db_calls w)); eexists; (split; [reflexivity|]);
    simpl; by rewrite ?app_nil_r.
Qed.

Lemma NamedTemporaryFile_spec E filename w :
  ∃ w1,
    document_service.NamedTemporaryFile E filename w
      = (if fs_fails E (fs_calls w) then Raise (BackendError "file system")
         else Ok (tmp_name E (fs_calls w) filename), w1) ∧
    effect w w1 [] [] 0 1 0.
Proof.
  unfold document_service.NamedTemporaryFile, effect.
  destruct (fs_fails E (fs_calls w)); eexists; (split; [reflexivity|]);
    simpl; by rewrite ?app_nil_r.
Qed.

Lemma write_spec E temp_file file_content w :
  ∃ w1,
    document_service.write E temp_file file_content w
      = (if fs_fails E (fs_calls w) then Raise (BackendError "file system")
         else Ok (), w1) ∧
    effect w w1 [] [] 0 1 0.
Proof.
  unfold document_service.write, effect.
  destruct (fs_fails E (fs_calls w)); eexists; (split; [reflexivity|]);
    simpl; by rewrite ?app_nil_r.
Qed.

Lemma close_spec E temp_file w :
  ∃ w1,
    document_service.close E temp_file w
      = (if fs_fails E (fs_calls w) then Raise (BackendError "file system")
         else Ok (), w1) ∧
    effect w w1 [] [] 0 1 0.
Proof.
  unfold document_service.close, effect.
  destruct (fs_fails E (fs_calls w)); eexists; (split; [reflexivity|]);
    simpl; by rewrite ?app_nil_r.
Qed.

Lemma load_spec E loader file_content w :
  ∃ w1,
    document_service.load E loader file_content w
      = (if fs_fails E (fs_calls w) then Raise (BackendError "loader")
         else Ok (loader_load E loader file_content), w1) ∧
    effect w w1 [] [] 0 1 0.
Proof.
  unfold document_service.load, effect.
  destruct (fs_fails E (fs_calls w)); eexists; (split; [reflexivity|]);
    simpl; by rewrite ?app_nil_r.
Qed.

Lemma add_stamped_spec E session_id document_id filename chunks w :
  ∃ w1,
    vector_store.add_documents E
        (document_service.stamp session_id document_id filename <$> chunks) w
      = (if vec_fails E (vec_calls w) then Raise (BackendError "vector store")
         else Ok (), w1) ∧
    effect w w1 []
      (if vec_fails E (vec_calls w) then []
       else document_service.stamp session_id document_id filename <$> chunks)
      0 0 1.
Proof.
  unfold vector_store.add_documents, mbind, St_bind. rewrite validate_spec.
  rewrite stamped_have_session_id.
  unfold PGVector.aadd_documents, effect.
  destruct (vec_fails E (vec_calls w)); eexists; (split; [reflexivity|]);
    simpl; by rewrite ?app_nil_r.
Qed.

Lemma unlink_quietly_spec E path w :
  ∃ w1 fs,
    document_service.unlink_quietly E path w = (Ok (), w1) ∧
    effect w w1 [] [] 0 fs 0.
Proof.
  unfold document_service.unlink_quietly, effect.
  destruct (bool_decide _); [destruct (fs_fails E (fs_calls w))|].
  - exists (tick_fs w), 1. simpl. by rewrite ?app_nil_r.
  - eexists _, 1. split; [reflexivity|]. simpl. by rewrite ?app_nil_r.
  - exists w, 0. simpl. by rewrite ?app_nil_r.
Qed.

Ltac use_effect :=
  match goal with
  | H : effect _ _ _ _ _ _ _ |- _ =>
      let Hlog := fresh "Hlog" in let Hemb := fresh "Hemb" in
      let Hdb := fresh "Hdb" in let Hfs := fresh "Hfs" in
      let Hvec := fresh "Hvec" in
      destruct H as (Hlog & Hemb & Hdb & Hfs & Hvec);
      cbn [Nat.add] in Hdb, Hfs, Hvec
  end.

Ltac norm_world :=
  repeat match goal with
         | H : db_calls ?x = _ |- context [db_calls ?x] => rewrite H
         | H : fs_calls ?x = _ |- context [fs_calls ?x] => rewrite H
         | H : vec_calls ?x = _ |- context [vec_calls ?x] => rewrite H
         | H : status_log ?x = _ |- context [status_log ?x] => rewrite H
         | H : embeddings ?x = _ |- context [embeddings ?x] => rewrite H
         end.

Ltac ingest_call :=
  match goal with
  | |- context [document_repository.create_document ?E ?a ?b ?c ?d ?w] =>
      destruct (create_document_spec E a b c d w) as (? & -> & ?)
  | |- context [document_repository.update_status ?E ?a ?b ?w] =>
      destruct (update_status_spec E a b w) as (? & -> & ?)
  | |- context [document_service.NamedTemporaryFile ?E ?a ?w] =>
      destruct (NamedTemporaryFile_spec E a w) as (? & -> & ?)
  | |- context [document_service.write ?E ?a ?b ?w] =>
      destruct (write_spec E a b w) as (? & -> & ?)
  | |- context [document_service.close ?E ?a ?w] =>
      destruct (close_spec E a w) as (? & -> & ?)
  | |- context [document_service.load ?E ?a ?b ?w] =>
      destruct (load_spec E a b w) as (? & -> & ?)
  | |- context [vector_store.add_documents ?E
                  (document_service.stamp ?a ?b ?c <$> ?l) ?w] =>
      destruct (add_stamped_spec E a b c l w) as (? & -> & ?)
  | |- context [document_service.unlink_quietly ?E ?a ?w] =>
      destruct (unlink_quietly_spec E a w) as (? & ? & -> & ?)
  end;
  use_effect; norm_world.

Ltac ingest_reduce :=
  cbn [fst snd document_service.document document_service.temp_file_path
       models_document.id].

Ltac ingest_branch :=
  match goal with
  | |- context [if ?b then _ else _] => destruct b eqn:?
  end.

Lemma ingest_document_run (E : Env) (file_content : list Byte.byte)
    (filename : string) (session_id : UUID) (mime_type : string) (w : World) :
  let out := ingest_outcome E file_content filename session_id mime_type w in
  let run := document_service.ingest_document E file_content filename
               session_id mime_type w in
  run.1 = out.1.1 ∧
  status_log run.2
    = status_log w ++ (pair (uuid4 E (uuid_calls w)) <$> out.1.2) ∧
  embeddings run.2 = embeddings w ++ out.2.
Proof.
  unfold ingest_outcome, document_service.ingest_document, document_service.call,
    document_service.choose_loader,
    try_finally, try_except, mbind, St_bind, mret, St_ret, raise,
    document_service.lift, document_service.locals,
    document_service.set_document, document_service.set_temp_file_path.
  ingest_reduce.
  repeat (first [ingest_call | ingest_branch]; ingest_reduce).
  all: norm_world;
    repeat match goal with
           | H : ?b = _ |- context [if ?b then _ else _] => rewrite H
           end;
    rewrite ?app_nil_r, <- ?app_assoc; done.
Qed.

Lemma ingest_trace_outcome (E : Env) (file_content : list Byte.byte)
    (filename : string) (session_id : UUID) (mime_type : string) (w : World) :
  ingest_trace E file_content filename session_id mime_type w
    = pair (uuid4 E (uuid_calls w))
        <$> (ingest_outcome E file_content filename session_id mime_type w).1.2.
Proof.
  unfold ingest_trace.
  destruct (ingest_document_run E file_content filename session_id mime_type w)
    as (_ & -> & _).
  by rewrite drop_app_length.
Qed.

Lemma fmap_snd_pair {A B} (a : A) (l : list B) : (pair a <$> l).*2 = l.
Proof. induction l as [|b l IH]; csimpl; [done|]. by f_equal. Qed.

Ltac outcome_cases :=
  unfold ingest_outcome;
  repeat match goal with
         | |- context [if ?b then _ else _] => destruct b eqn:?
         end;
  cbn [fst snd app].

(** C5, as stated, fails: when the update to processing raises and the update
    to failed that the handler issues goes through, the row goes from pending
    straight to failed. *)
Lemma C5_pending_then_failed :
  ¬ (∀ (E : Env) (file_content : list Byte.byte) (filename : string)
       (session_id : UUID) (mime_type : string) (w : World),
        lifecycle_prefix
          (ingest_trace E file_content filename session_id mime_type w).*2).
Proof.
  intros H.
  specialize (H samples.processing_update_fails [] "notes.txt" samples.session_a
                "text/plain" samples.empty_world).
  vm_compute in H. destruct H as [[k Hk]|[k Hk]]; discriminate Hk.
Qed.

(** C5, amended.  The statuses one run of [ingest_document] writes all go to
    the row it created, and form either a prefix of pending, processing,
    (indexed | failed), or the sequence pending, failed, which occurs when
    the update to processing itself raises.  In every case only the last
    status written can be indexed or failed: nothing is written after a
    terminal status. *)
Theorem C5_status_sequences (E : Env) (file_content : list Byte.byte)
    (filename : string) (session_id : UUID) (mime_type : string) (w : World) :
  let trace := ingest_trace E file_content filename session_id mime_type w in
  status_log (document_service.ingest_document E file_content filename
                session_id mime_type w).2 = status_log w ++ trace ∧
  Forall (λ entry, entry.1 = uuid4 E (uuid_calls w)) trace ∧
  (lifecycle_prefix trace.*2 ∨
   trace.*2 = [pending; failed] ∧ db_fails E (S (db_calls w)) = true) ∧
  Forall (λ s, s = pending ∨ s = processing) (removelast trace.*2).
Proof.
  cbv zeta. rewrite ingest_trace_outcome, fmap_snd_pair.
  split; [apply ingest_document_run|].
  split; [apply Forall_fmap, Forall_true; done|].
  unfold lifecycle_prefix.
  outcome_cases;
    (split; [|simpl; repeat constructor; by eauto]);
    first [ left; left; by eexists | left; right; by eexists | right; done ].
Qed.

(** C6, as stated, fails: the pipeline also accepts text/markdown, and a
    document declared with that type is ingested and indexed. *)
Lemma C6_markdown_is_ingested :
  ¬ (∀ (E : Env) (file_content : list Byte.byte) (filename : string)
       (session_id : UUID) (mime_type : string) (w : World),
        mime_type ≠ "application/pdf" → mime_type ≠ "text/plain" →
        ∃ e, (document_service.ingest_document E file_content filename
                session_id mime_type w).1 = Raise e).
Proof.
  intros H.
  destruct (H samples.healthy [] "notes.md" samples.session_a "text/markdown"
              samples.empty_world) as (e & Hrun); [done..|].
  vm_compute in Hrun. discriminate Hrun.
Qed.

Lemma unsupported_type (mime_type : string) :
  mime_type ≠ "application/pdf" → mime_type ≠ "text/plain" →
  mime_type ≠ "text/markdown" →
  String.eqb mime_type "application/pdf" = false ∧
  bool_decide (mime_type ∈ ["text/plain"; "text/markdown"]) = false.
Proof.
  intros Hpdf Hplain Hmd. split.
  - by apply String.eqb_neq.
  - apply bool_decide_eq_false. rewrite !elem_of_cons, elem_of_nil. tauto.
Qed.

(** C6, amended.  [ingest_document] accepts three declared types,
    application/pdf, text/plain and text/markdown: for each of them it
    returns the id of the new row when every step goes through.  For every
    other type the call raises and indexes nothing; when the steps before
    and after the type check go through (the record is created, the update
    to processing, the creation, the write and the close of the temporary
    file, and the update to failed succeed) the error is [ValueError]
    "Unsupported file type: <type>" and the statuses written are pending,
    processing, failed.  The upload route admits only application/pdf and
    text/plain: it answers every other type, text/markdown included, with
    HTTP 400 and leaves the state untouched, so no document row exists to be
    marked failed. *)
Theorem C6_unsupported_type (E : Env) (file_content : list Byte.byte)
    (filename : string) (session_id : UUID) (mime_type : string) (w : World) :
  let run := document_service.ingest_document E file_content filename
               session_id mime_type w in
  (every_step_succeeds E mime_type w → run.1 = Ok (uuid4 E (uuid_calls w))) ∧
  (mime_type ≠ "application/pdf" → mime_type ≠ "text/plain" →
   mime_type ≠ "text/markdown" →
     (∃ e, run.1 = Raise e) ∧
     embeddings run.2 = embeddings w ∧
     (db_fails E (db_calls w) = false → db_fails E (S (db_calls w)) = false →
      fs_fails E (fs_calls w) = false → fs_fails E (S (fs_calls w)) = false →
      fs_fails E (S (S (fs_calls w))) = false →
      db_fails E (S (S (db_calls w))) = false →
        run.1 = Raise (ValueError ("Unsupported file type: " +:+ mime_type)) ∧
        (ingest_trace E file_content filename session_id mime_type w).*2
          = [pending; processing; failed])) ∧
  (mime_type ≠ "application/pdf" → mime_type ≠ "text/plain" →
     upload.upload_document E session_id
       (upload.mkUploadFile filename mime_type file_content) w
     = (Raise (HTTPException 400
                 ("Unsupported file type: " +:+ mime_type
                  +:+ ". Allowed: ['application/pdf', 'text/plain']")), w)).
Proof.
  cbv zeta. rewrite ingest_trace_outcome, fmap_snd_pair.
  destruct (ingest_document_run E file_content filename session_id mime_type w)
    as (-> & _ & ->).
  split_and!.
  - intros ((H1 & H2 & H3 & H4 & H5 & Htype & H6 & H7) & H8).
    unfold ingest_outcome. rewrite H1, H2, H3, H4, H5, H6, H7, H8.
    unfold supported_type in Htype.
    destruct (String.eqb mime_type "application/pdf") eqn:Hpdf; [done|].
    rewrite bool_decide_eq_true_2; [done|].
    apply elem_of_cons in Htype as [->|Htype]; [discriminate Hpdf | exact Htype].
  - intros Hpdf Hplain Hmd.
    destruct (unsupported_type mime_type Hpdf Hplain Hmd) as [Hno_pdf Hno_text].
    unfold ingest_outcome. rewrite Hno_pdf, Hno_text.
    split_and!.
    + repeat match goal with
             | |- context [if ?b then _ else _] => destruct b eqn:?
             end; by eexists.
    + repeat match goal with
             | |- context [if ?b then _ else _] => destruct b eqn:?
             end; cbn [snd]; by rewrite app_nil_r.
    + by intros -> -> -> -> -> ->.
  - intros Hpdf Hplain.
    unfold upload.upload_document. cbn [upload.content_type].
    rewrite bool_decide_eq_false_2; [done|].
    unfold upload.allowed_types. rewrite !elem_of_cons, elem_of_nil. tauto.
Qed.

Lemma C6_unsupported_type_witness :
  (document_service.ingest_document samples.healthy [] "notes.md"
     samples.session_a "text/markdown" samples.empty_world).1
    = Ok (uuid4 samples.healthy 0) ∧
  (let run := document_service.ingest_document samples.healthy [] "photo.png"
                samples.session_a "image/png" samples.empty_world in
   (∃ e, run.1 = Raise e) ∧
   embeddings run.2 = embeddings samples.empty_world ∧
   run.1 = Raise (ValueError ("Unsupported file type: " +:+ "image/png")) ∧
   (ingest_trace samples.healthy [] "photo.png" samples.session_a "image/png"
      samples.empty_world).*2 = [pending; processing; failed]) ∧
  upload.upload_document samples.healthy samples.session_a
    (upload.mkUploadFile "notes.md" "text/markdown" []) samples.empty_world
  = (Raise (HTTPException 400
              ("Unsupported file type: " +:+ "text/markdown"
               +:+ ". Allowed: ['application/pdf', 'text/plain']")),
     samples.empty_world).
Proof.
  split; [|split].
  - apply (proj1 (C6_unsupported_type samples.healthy [] "notes.md"
                    samples.session_a "text/markdown" samples.empty_world)).
    repeat split; try reflexivity.
    unfold supported_type. do 2 apply list_elem_of_further. apply list_elem_of_here.
  - destruct (proj1 (proj2 (C6_unsupported_type samples.healthy [] "photo.png"
                              samples.session_a "image/png" samples.empty_world)))
      as (H1 & H2 & H3); [discriminate..|].
    split; [exact H1|]. split; [exact H2|]. apply H3; reflexivity.
  - apply (proj2 (proj2 (C6_unsupported_type samples.healthy [] "notes.md"
                           samples.session_a "text/markdown" samples.empty_world)));
      discriminate.
Defined.

Lemma stamp_metadata session_id document_id filename (chunk : langchain.Document) :
  let stamped := document_service.stamp session_id document_id filename chunk in
  metadata stamped !! "session_id" = Some (str session_id) ∧
  metadata stamped !! "document_id" = Some (str document_id) ∧
  metadata stamped !! "filename" = Some filename.
Proof.
  cbn [document_service.stamp metadata].
  split_and!; by simplify_map_eq.
Qed.

(** C7. When [ingest_document] returns, the collection has gained exactly
    the chunks the splitter produced for the loaded document, in order, each
    once: as many entries as chunks, with the chunks' texts, and every one of
    them carrying the session id, the id of the document row and the
    filename in its metadata.  The stamped list is the batch handed to
    [add_documents], so no chunk reaches the collection unstamped. *)
Theorem C7_chunks_stamped_and_complete (E : Env) (file_content : list Byte.byte)
    (filename : string) (session_id : UUID) (mime_type : string)
    (w w' : World) (document_id : UUID) :
  document_service.ingest_document E file_content filename session_id mime_type w
    = (Ok document_id, w') →
  ∃ loader added,
    let chunks := split_documents E (loader_load E loader file_content) in
    document_id = uuid4 E (uuid_calls w) ∧
    added = document_service.stamp session_id document_id filename <$> chunks ∧
    embeddings w' = embeddings w ++ added ∧
    length added = length chunks ∧
    page_content <$> added = page_content <$> chunks ∧
    Forall (λ c, metadata c !! "session_id" = Some (str session_id) ∧
                 metadata c !! "document_id" = Some (str document_id) ∧
                 metadata c !! "filename" = Some filename) added.
Proof.
  intros Hrun.
  destruct (ingest_document_run E file_content filename session_id mime_type w)
    as (Hres & _ & Hemb).
  rewrite Hrun in Hres, Hemb. cbn [fst snd] in Hres, Hemb. revert Hres Hemb.
  outcome_cases; intros [= ->] ->; eexists _, _; cbv zeta;
    (split_and!; [reflexivity | reflexivity | reflexivity | by rewrite length_fmap
                 | by rewrite <- list_fmap_compose | ]);
    apply Forall_fmap, Forall_true; intros c; apply stamp_metadata.
Qed.

Lemma C7_chunks_stamped_and_complete_witness :
  ∃ loader added,
    let chunks := split_documents samples.healthy
                    (loader_load samples.healthy loader []) in
    mkUUID "A" = uuid4 samples.healthy (uuid_calls samples.empty_world) ∧
    added = document_service.stamp samples.session_a (mkUUID "A") "notes.txt"
              <$> chunks ∧
    embeddings (document_service.ingest_document samples.healthy [] "notes.txt"
                  samples.session_a "text/plain" samples.empty_world).2
      = embeddings samples.empty_world ++ added ∧
    length added = length chunks ∧
    page_content <$> added = page_content <$> chunks ∧
    Forall (λ c, metadata c !! "session_id" = Some (str samples.session_a) ∧
                 metadata c !! "document_id" = Some (str (mkUUID "A")) ∧
                 metadata c !! "filename" = Some "notes.txt") added.
Proof.
  apply (C7_chunks_stamped_and_complete samples.healthy [] "notes.txt"
           samples.session_a "text/plain" samples.empty_world).
  vm_compute. reflexivity.
Defined.

(** ** Runs of the theorems on concrete inputs *)


Lemma C8_search_failure_is_empty_witness :
  vector_store.similarity_search samples.vector_down "What language is discussed?"
    samples.session_b 4 samples.world_b
  = (Ok [], tick_vec samples.world_b).
Proof.
  apply (C8_search_failure_is_empty samples.vector_down
           "What language is discussed?" samples.session_b 4 samples.world_b
           (tick_vec samples.world_b) (BackendError "vector store")).
  reflexivity.
Defined.

Lemma C9_history_window_witness :
  let stored := filter (λ msg, models_message.session_id msg = samples.session_a)
                       (chat_messages samples.world_chat) in
  ∃ history window older,
    (chat_repository.get_history samples.healthy samples.session_a 2
       samples.world_chat).1 = Ok history ∧
    Forall2 (λ item msg,
               chat_repository.role item = models_message.role msg ∧
               chat_repository.content item = models_message.content msg ∧
               chat_repository.created_at item = models_message.created_at msg)
            history window ∧
    Sorted (λ a b, (chat_repository.created_at a ≤ chat_repository.created_at b)%Z)
           history ∧
    length history = min 2 (length stored) ∧
    window ++ older ≡ₚ stored ∧
    (∀ x y, x ∈ older → y ∈ window →
            (models_message.created_at x ≤ models_message.created_at y)%Z).
Proof.
  apply (C9_history_window samples.healthy samples.session_a 2 samples.world_chat).
  reflexivity.
Defined.

Lemma C10_generate_response_total_witness :
  ∃ reply w',
    chat_service.generate_response samples.database_down samples.session_a "hi"
      samples.empty_world = (Ok reply, w') ∧
    chat_messages w' = chat_messages samples.empty_world ∧
    reply = completion samples.database_down 0 (chat_service.fallback_messages "hi").
Proof.
  destruct (C10_generate_response_total samples.database_down samples.session_a
              "hi" samples.empty_world) as (reply & w' & Hrun & Hdown).
  exists reply, w'. split; [exact Hrun|].
  apply Hdown. reflexivity.
Defined.

Example history_window_run :
  (chat_repository.get_history samples.healthy samples.session_a 2
     samples.world_chat).1
  = Ok [chat_repository.mkHistoryItem assistant "second" 2;
        chat_repository.mkHistoryItem user "third" 3].
Proof. vm_compute. reflexivity. Qed.

Example isolation_scenario :
  let w := set_embeddings [samples.chunk_a; samples.chunk_b] samples.empty_world in
  (vector_store.similarity_search samples.healthy "What language is discussed?"
     samples.session_a 4 w).1 = Ok [samples.chunk_a] ∧
  (vector_store.similarity_search samples.healthy "What language is discussed?"
     samples.session_b 4 w).1 = Ok [samples.chunk_b].
Proof. split; vm_compute; reflexivity. Qed.

(** * Further properties *)

(** ** The history store *)

Lemma select_recent_length (session_id : UUID) (limit : nat)
    (table : list models_message.ChatMessage) :
  length (chat_repository.select_recent session_id limit table)
    = min limit (length (List.filter (chat_repository.of_session session_id) table)).
Proof.
  unfold chat_repository.select_recent.
  by rewrite length_take, (Permutation_length (merge_sort_Permutation _ _)).
Qed.

Lemma select_recent_elem_of (session_id : UUID) (limit : nat)
    (table : list models_message.ChatMessage) (msg : models_message.ChatMessage) :
  msg ∈ chat_repository.select_recent session_id limit table →
  msg ∈ table ∧ models_message.session_id msg = session_id.
Proof.
  unfold chat_repository.select_recent. intros Hin.
  apply subseteq_take in Hin. rewrite merge_sort_Permutation in Hin.
  apply list_elem_of_In, filter_In in Hin as [Hin Hs].
  split; [by apply list_elem_of_In|].
  by apply bool_decide_eq_true in Hs.
Qed.

Lemma filter_other_session (A B : UUID) (msg : models_message.ChatMessage)
    (table : list models_message.ChatMessage) :
  A ≠ B → models_message.session_id msg = A →
  List.filter (chat_repository.of_session B) (table ++ [msg])
    = List.filter (chat_repository.of_session B) table.
Proof.
  intros Hne Hmsg. rewrite List.filter_app. simpl.
  unfold chat_repository.of_session at 2.
  rewrite bool_decide_eq_false_2, app_nil_r; [done|]. congruence.
Qed.

Lemma add_message_ok E session_id role content w msg w1 :
  chat_repository.add_message E session_id role content w = (Ok msg, w1) →
  msg = models_message.mkChatMessage (uuid4 E (uuid_calls w)) session_id role
          content (now E (db_calls w)) ∧
  chat_messages w1 = chat_messages w ++ [msg] ∧
  db_calls w1 = S (db_calls w).
Proof.
  unfold chat_repository.add_message.
  destruct (db_fails E (db_calls w)); [done|].
  intros [= <- <-]. done.
Qed.

(** X1. The history of a session holds only that session's messages, and a
    message appended to another session does not change what is read: every
    item [get_history B limit] returns comes from a stored message of [B],
    and after [add_message] for a session [A ≠ B] the same read returns the
    same list. *)
Theorem X1_history_is_per_session (E : Env) (A B : UUID) (role : Role)
    (content : string) (limit : nat) (w : World) :
  (∀ history item,
      (chat_repository.get_history E B limit w).1 = Ok history →
      item ∈ history →
      ∃ msg, msg ∈ chat_messages w ∧ models_message.session_id msg = B ∧
             item = chat_repository.to_dict msg) ∧
  (A ≠ B →
   ∀ msg w1,
      chat_repository.add_message E A role content w = (Ok msg, w1) →
      db_fails E (db_calls w1) = db_fails E (db_calls w) →
      (chat_repository.get_history E B limit w1).1
        = (chat_repository.get_history E B limit w).1).
Proof.
  split.
  - intros history item. unfold chat_repository.get_history.
    destruct (db_fails E (db_calls w)); [done|]. cbn [fst].
    intros [= <-] Hin.
    apply list_elem_of_fmap in Hin as (msg & -> & Hin).
    rewrite elem_of_reverse in Hin.
    apply select_recent_elem_of in Hin as [Hin Hs]. eauto.
  - intros Hne msg w1 Hadd Hsame.
    apply add_message_ok in Hadd as (Hmsg & Htable & _).
    unfold chat_repository.get_history. rewrite Hsame.
    destruct (db_fails E (db_calls w)); [done|]. cbn [fst].
    unfold chat_repository.select_recent.
    rewrite Htable, (filter_other_session A B); [done..|].
    by rewrite Hmsg.
Qed.

Lemma X1_history_is_per_session_witness :
  (chat_repository.get_history samples.healthy samples.session_a 2
     (chat_repository.add_message samples.healthy samples.session_b user "hello"
        samples.world_chat).2).1
    = (chat_repository.get_history samples.healthy samples.session_a 2
         samples.world_chat).1.
Proof.
  eapply (proj2 (X1_history_is_per_session samples.healthy samples.session_b
                   samples.session_a user "hello" 2 samples.world_chat)).
  - discriminate.
  - reflexivity.
  - reflexivity.
Defined.

Lemma newest_is_first (msg : models_message.ChatMessage)
    (older : list models_message.ChatMessage) :
  Forall (λ m, (models_message.created_at m < models_message.created_at msg)%Z) older →
  ∃ rest, merge_sort chat_repository.newer_first (older ++ [msg]) = msg :: rest.
Proof.
  intros Hold.
  pose proof (StronglySorted_merge_sort chat_repository.newer_first (older ++ [msg]))
    as Hsorted.
  pose proof (merge_sort_Permutation chat_repository.newer_first (older ++ [msg]))
    as Hperm.
  destruct (merge_sort chat_repository.newer_first (older ++ [msg])) as [|x rest].
  { apply Permutation_nil_l in Hperm. by destruct older. }
  exists rest. f_equal.
  assert (x ∈ older ++ [msg]) as Hx by (rewrite <- Hperm; apply list_elem_of_here).
  apply elem_of_app in Hx as [Hx|Hx]; [|by apply list_elem_of_singleton in Hx].
  exfalso.
  assert (msg ∈ x :: rest) as Hmsg.
  { rewrite Hperm. apply elem_of_app. right. apply list_elem_of_here. }
  rewrite Forall_forall in Hold. specialize (Hold x Hx).
  apply elem_of_cons in Hmsg as [->|Hmsg]; [lia|].
  apply StronglySorted_inv in Hsorted as [_ Hall].
  rewrite Forall_forall in Hall. specialize (Hall msg Hmsg).
  unfold chat_repository.newer_first in Hall. lia.
Qed.

(** X2. A message is read back right after it is written: when
    [add_message] succeeds with a creation time later than that of every
    stored message of the session, the next successful [get_history] of that
    session with a positive limit ends with the new message. *)
Theorem X2_appended_message_is_last (E : Env) (session_id : UUID) (role : Role)
    (content : string) (limit : nat) (w w1 : World)
    (msg : models_message.ChatMessage) :
  chat_repository.add_message E session_id role content w = (Ok msg, w1) →
  (∀ m, m ∈ chat_messages w → models_message.session_id m = session_id →
        (models_message.created_at m < now E (db_calls w))%Z) →
  db_fails E (db_calls w1) = false →
  (0 < limit)%nat →
  ∃ earlier,
    (chat_repository.get_history E session_id limit w1).1
      = Ok (earlier ++ [chat_repository.mkHistoryItem role content
                          (now E (db_calls w))]).
Proof.
  intros Hadd Hnewer Hread Hlimit.
  apply add_message_ok in Hadd as (Hmsg & Htable & _).
  unfold chat_repository.get_history. rewrite Hread. cbn [fst].
  unfold chat_repository.select_recent. rewrite Htable, List.filter_app.
  assert (List.filter (chat_repository.of_session session_id) [msg] = [msg]) as ->.
  { simpl. unfold chat_repository.of_session.
    rewrite bool_decide_eq_true_2; [done|]. by rewrite Hmsg. }
  destruct (newest_is_first msg
              (List.filter (chat_repository.of_session session_id) (chat_messages w)))
    as (rest & ->).
  { apply Forall_forall. intros m Hm.
    apply list_elem_of_In, filter_In in Hm as [Hm Hs].
    apply bool_decide_eq_true in Hs. rewrite Hmsg. cbn.
    apply Hnewer; [by apply list_elem_of_In | done]. }
  destruct limit as [|limit]; [lia|]. cbn [take].
  rewrite reverse_cons, fmap_app. eexists. f_equal. f_equal.
  by rewrite Hmsg.
Qed.

Lemma X2_appended_message_is_last_witness :
  ∃ earlier,
    (chat_repository.get_history more_samples.late_clock samples.session_a 2
       (chat_repository.add_message more_samples.late_clock samples.session_a user
          "fourth" samples.world_chat).2).1
      = Ok (earlier ++ [chat_repository.mkHistoryItem user "fourth"
                          (now more_samples.late_clock
                             (db_calls samples.world_chat))]).
Proof.
  eapply (X2_appended_message_is_last more_samples.late_clock samples.session_a
            user "fourth" 2 samples.world_chat).
  - reflexivity.
  - intros m Hm _. revert m Hm. apply Forall_forall.
    repeat constructor.
  - reflexivity.
  - lia.
Defined.

Lemma get_history_ok E session_id limit w :
  db_fails E (db_calls w) = false →
  (chat_repository.get_history E session_id limit w).1
    = Ok (chat_repository.to_dict
            <$> reverse (chat_repository.select_recent session_id limit
                           (chat_messages w))).
Proof. intros Hdb. unfold chat_repository.get_history. by rewrite Hdb. Qed.

(** X3. A successful [get_history] returns the empty list exactly when the
    limit is zero or no stored message has the session id asked for; with a
    limit of at least the number of those messages it returns all of them:
    the items carry the roles, contents and creation times of a
    rearrangement of the stored messages of the session. *)
Theorem X3_history_empty_or_full (E : Env) (session_id : UUID) (limit : nat)
    (w : World) :
  db_fails E (db_calls w) = false →
  let stored := filter (λ msg, models_message.session_id msg = session_id)
                       (chat_messages w) in
  ((chat_repository.get_history E session_id limit w).1 = Ok []
     ↔ limit = 0%nat ∨ stored = []) ∧
  ((length stored ≤ limit)%nat →
     ∃ history window,
       (chat_repository.get_history E session_id limit w).1 = Ok history ∧
       Forall2 (λ item msg,
                  chat_repository.role item = models_message.role msg ∧
                  chat_repository.content item = models_message.content msg ∧
                  chat_repository.created_at item = models_message.created_at msg)
               history window ∧
       window ≡ₚ stored).
Proof.
  intros Hdb stored. rewrite (get_history_ok _ _ _ _ Hdb).
  pose proof (select_recent_length session_id limit (chat_messages w)) as Hlen.
  rewrite filter_of_session in Hlen. fold stored in Hlen.
  split.
  - split.
    + intros [= Hnil]. apply fmap_nil_inv in Hnil.
      apply (f_equal length) in Hnil. rewrite length_reverse, Hlen in Hnil.
      simpl in Hnil. destruct limit; [by left|right].
      destruct stored; [done|]. simpl in Hnil. lia.
    + intros Hcase. f_equal.
      assert (length (chat_repository.select_recent session_id limit
                        (chat_messages w)) = 0%nat) as Hzero.
      { rewrite Hlen. destruct Hcase as [->| ->]; [done|]. simpl. lia. }
      apply nil_length_inv in Hzero. by rewrite Hzero.
  - intros Hall. eexists _, _. split; [reflexivity|].
    split; [apply to_dict_fields|].
    rewrite reverse_Permutation. unfold chat_repository.select_recent.
    rewrite take_ge.
    + by rewrite merge_sort_Permutation, filter_of_session.
    + by rewrite (Permutation_length (merge_sort_Permutation _ _)),
        filter_of_session.
Qed.

Lemma X3_history_empty_or_full_witness :
  let stored := filter (λ msg, models_message.session_id msg = samples.session_a)
                       (chat_messages samples.world_chat) in
  (length stored ≤ 5)%nat ∧
  ((chat_repository.get_history samples.healthy samples.session_a 5
      samples.world_chat).1 = Ok [] ↔ 5%nat = 0%nat ∨ stored = []) ∧
  ∃ history window,
    (chat_repository.get_history samples.healthy samples.session_a 5
       samples.world_chat).1 = Ok history ∧
    Forall2 (λ item msg,
               chat_repository.role item = models_message.role msg ∧
               chat_repository.content item = models_message.content msg ∧
               chat_repository.created_at item = models_message.created_at msg)
            history window ∧
    window ≡ₚ stored.
Proof.
  cbv zeta.
  assert (length (filter (λ msg, models_message.session_id msg = samples.session_a)
                         (chat_messages samples.world_chat)) ≤ 5)%nat as Hfew
    by (vm_compute; lia).
  split; [exact Hfew|].
  destruct (X3_history_empty_or_full samples.healthy samples.session_a 5
              samples.world_chat eq_refl) as [Hempty Hfull].
  split; [exact Hempty | exact (Hfull Hfew)].
Defined.

(** ** The orchestrator *)

Ltac chat_fields :=
  cbn [fst snd chat_messages llm_calls llm_requests db_calls vec_calls
       tick_llm set_llm_requests set_chat_messages tick_db tick_uuid tick_vec].

(** X4. [generate_response] only ever appends to the history: whatever the
    collaborators do, the messages stored before the call are still there, in
    order, followed by at most two new messages, all of the session of the
    request. *)
Theorem X4_history_append_only (E : Env) (session_id : UUID)
    (user_message : string) (w : World) :
  ∃ added,
    chat_messages (chat_service.generate_response E session_id user_message w).2
      = chat_messages w ++ added ∧
    (length added ≤ 2)%nat ∧
    Forall (λ m, models_message.session_id m = session_id) added.
Proof.
  destruct (chat_service.generate_response E session_id user_message w)
    as [r w'] eqn:Hrun.
  chat_cases Hrun; chat_fields; rewrite <- ?app_assoc;
    first [ exists []; rewrite app_nil_r; by repeat constructor
          | eexists; split; [reflexivity|]; split; [simpl; lia|];
            by repeat constructor ].
Qed.

(** X5. When every step succeeds, [generate_response] sends one request to
    the generation backend, returns its completion, and stores two messages:
    the user message, then an assistant message whose content is exactly the
    string returned. *)
Theorem X5_successful_turn (E : Env) (session_id : UUID) (user_message : string)
    (w : World) :
  db_fails E (db_calls w) = false →
  db_fails E (S (db_calls w)) = false →
  llm_fails E (llm_calls w) = false →
  db_fails E (S (S (db_calls w))) = false →
  ∃ reply request asked answered w',
    chat_service.generate_response E session_id user_message w = (Ok reply, w') ∧
    llm_requests w' = llm_requests w ++ [request] ∧
    reply = completion E (llm_calls w) request ∧
    chat_messages w' = chat_messages w ++ [asked; answered] ∧
    models_message.role asked = user ∧
    models_message.content asked = user_message ∧
    models_message.role answered = assistant ∧
    models_message.content answered = reply.
Proof.
  intros H1 H2 H3 H4.
  destruct (chat_service.generate_response E session_id user_message w)
    as [r w'] eqn:Hrun.
  chat_cases Hrun; try congruence.
  eexists _, _, _, _, _. chat_fields. rewrite <- ?app_assoc.
  split_and!; reflexivity.
Qed.

Lemma X5_successful_turn_witness :
  ∃ reply request asked answered w',
    chat_service.generate_response samples.healthy samples.session_a "hi"
      samples.world_chat = (Ok reply, w') ∧
    llm_requests w' = llm_requests samples.world_chat ++ [request] ∧
    reply = completion samples.healthy (llm_calls samples.world_chat) request ∧
    chat_messages w' = chat_messages samples.world_chat ++ [asked; answered] ∧
    models_message.role asked = user ∧
    models_message.content asked = "hi" ∧
    models_message.role answered = assistant ∧
    models_message.content answered = reply.
Proof.
  apply (X5_successful_turn samples.healthy samples.session_a "hi"
           samples.world_chat); reflexivity.
Defined.

(** X6. The reply of the fallback is not recorded: when the user message
    was stored, the history read went through and the generation call
    raises, no further statement is sent to the database and the history
    gains exactly the user message, whatever string the call returns (the
    completion of the fallback request, or the apology). *)
Theorem X6_fallback_reply_not_stored (E : Env) (session_id : UUID)
    (user_message : string) (w : World) :
  db_fails E (db_calls w) = false →
  db_fails E (S (db_calls w)) = false →
  llm_fails E (llm_calls w) = true →
  ∃ asked reply w',
    chat_service.generate_response E session_id user_message w = (Ok reply, w') ∧
    chat_messages w' = chat_messages w ++ [asked] ∧
    models_message.session_id asked = session_id ∧
    models_message.role asked = user ∧
    models_message.content asked = user_message ∧
    db_calls w' = S (S (db_calls w)) ∧
    reply = if llm_fails E (S (llm_calls w)) then chat_service.apology
            else completion E (S (llm_calls w))
                   (chat_service.fallback_messages user_message).
Proof.
  intros Hadd Hread Hgen.
  destruct (chat_service.generate_response E session_id user_message w)
    as [r w'] eqn:Hrun.
  chat_cases Hrun; try congruence; chat_fields;
    eexists _, _, _; split_and!; reflexivity.
Qed.

Lemma X6_fallback_reply_not_stored_witness :
  ∃ asked w',
    chat_service.generate_response samples.vector_down_model_flaky
      samples.session_a "hi" samples.world_chat = (Ok "reply", w') ∧
    chat_messages w' = chat_messages samples.world_chat ++ [asked] ∧
    models_message.session_id asked = samples.session_a ∧
    models_message.role asked = user ∧
    models_message.content asked = "hi" ∧
    db_calls w' = 2%nat.
Proof.
  destruct (X6_fallback_reply_not_stored samples.vector_down_model_flaky
              samples.session_a "hi" samples.world_chat eq_refl eq_refl eq_refl)
    as (asked & reply & w' & Hrun & Hhist & Hsession & Hrole & Hcontent & Hdb
        & Hreply).
  exists asked, w'. rewrite Hrun, Hreply.
  split_and!; [reflexivity | exact Hhist | exact Hsession | exact Hrole
              | exact Hcontent | exact Hdb].
Defined.

(** X7. Retrieval that fails or finds nothing degrades the prompt, not the
    turn: when the user message was stored and the history read went through,
    and the vector backend raises or the collection holds no entry of the
    session, a request is sent to the generation backend and the first one
    sent starts with the plain instruction, the one without a context
    section. *)
Theorem X7_no_context_plain_instruction (E : Env) (session_id : UUID)
    (user_message : string) (w : World) :
  db_fails E (db_calls w) = false →
  db_fails E (S (db_calls w)) = false →
  vec_fails E (vec_calls w) = true ∨
    Forall (λ d, metadata d !! "session_id" ≠ Some (str session_id)) (embeddings w) →
  ∃ turns later,
    llm_requests (chat_service.generate_response E session_id user_message w).2
      = llm_requests w
          ++ (SystemMessage chat_service.system_content_plain :: turns) :: later.
Proof.
  intros Hadd Hread Hnone.
  destruct (chat_service.generate_response E session_id user_message w)
    as [r w'] eqn:Hrun.
  run_chat Hrun. rewrite Hadd in Hrun. run_chat Hrun. rewrite Hread in Hrun.
  run_chat Hrun.
  cbn [embeddings tick_db tick_uuid set_chat_messages] in Hrun.
  assert ((if vec_fails E (vec_calls w) then []
           else take 4 (merge_sort (PGVector.closer E user_message)
                          (List.filter
                             (PGVector.matches {[ "session_id" := str session_id ]})
                             (embeddings w)))) = []) as Hdocs.
  { destruct Hnone as [-> | Hall]; [done|].
    rewrite (filter_matches_other _ _ Hall). by destruct (vec_fails E _). }
  rewrite Hdocs in Hrun. cbn [chat_service.build_context] in Hrun.
  unfold chat_service._build_messages in Hrun.
  chat_cases Hrun; chat_fields; rewrite <- ?app_assoc; eexists _, _; reflexivity.
Qed.

Lemma X7_no_context_plain_instruction_witness :
  ∃ turns later,
    llm_requests (chat_service.generate_response samples.vector_down
                    samples.session_a "hi" samples.world_b).2
      = llm_requests samples.world_b
          ++ (SystemMessage chat_service.system_content_plain :: turns) :: later.
Proof.
  apply (X7_no_context_plain_instruction samples.vector_down samples.session_a
           "hi" samples.world_b); [reflexivity | reflexivity |].
  left. reflexivity.
Defined.

Lemma last_n_length {A} (n : nat) (l : list A) : (length (last_n n l) ≤ n)%nat.
Proof. unfold last_n. rewrite length_drop. lia. Qed.

Lemma last_n_elem_of {A} (n : nat) (l : list A) (x : A) : x ∈ last_n n l → x ∈ l.
Proof.
  unfold last_n. intros Hin. rewrite <- (take_drop (length l - n) l).
  apply elem_of_app. by right.
Qed.

Lemma history_turns_length (items : list chat_repository.HistoryItem) :
  (length (concat (chat_service.history_message <$> items)) ≤ length items)%nat.
Proof.
  induction items as [|item items IH]; csimpl; [done|].
  rewrite length_app. unfold chat_service.history_message at 1.
  destruct (chat_repository.role item); simpl; lia.
Qed.

(** X8. Shape of every generation request [_build_messages] builds: one
    instruction message first, the current user message last, and between
    them at most six turns, each the content of a user or assistant entry of
    the history under the matching message type; no history entry becomes a
    second instruction message. *)
Theorem X8_request_shape (user_message context : string)
    (history : list chat_repository.HistoryItem) :
  ∃ instruction turns,
    chat_service._build_messages user_message context history
      = SystemMessage instruction :: turns ++ [HumanMessage user_message] ∧
    (length turns ≤ 6)%nat ∧
    Forall (λ turn, ∃ item, item ∈ history ∧
              (chat_repository.role item = user ∧
                 turn = HumanMessage (chat_repository.content item) ∨
               chat_repository.role item = assistant ∧
                 turn = AIMessage (chat_repository.content item))) turns.
Proof.
  unfold chat_service._build_messages. eexists _, _.
  split; [reflexivity|]. split.
  - etrans; [apply history_turns_length|]. apply last_n_length.
  - apply Forall_forall. intros turn Hturn.
    apply list_elem_of_In, in_concat in Hturn as (turns & Hturns & Hturn).
    apply list_elem_of_In in Hturn.
    apply list_elem_of_In, list_elem_of_fmap in Hturns as (item & -> & Hitem).
    exists item. split; [by eapply last_n_elem_of|].
    unfold chat_service.history_message in Hturn.
    destruct (chat_repository.role item);
      [left | right | by apply elem_of_nil in Hturn];
      apply list_elem_of_singleton in Hturn; done.
Qed.

(** ** The document table *)

Lemma update_status_ok E document_id status w :
  db_fails E (db_calls w) = false →
  document_repository.update_status E document_id status w
    = (Ok (),
       set_documents (document_repository.set_status document_id status
                        <$> documents w)
                     (status_log w ++ [(document_id, status)]) (tick_db w)).
Proof.
  intros Hdb. unfold document_repository.update_status. by rewrite Hdb.
Qed.

(** X9. A successful [update_status] rewrites the status of the rows with
    the given id and nothing else: the table keeps its length and order,
    every row keeps its id, session, filename, type and size, rows with
    another id keep their status, and when no row has the id the table is
    unchanged and the call still returns normally. *)
Theorem X9_update_status_rows (E : Env) (document_id : UUID)
    (status : DocStatus) (w : World) :
  db_fails E (db_calls w) = false →
  let run := document_repository.update_status E document_id status w in
  run.1 = Ok () ∧
  length (documents run.2) = length (documents w) ∧
  (∀ i row, documents w !! i = Some row →
     ∃ row', documents run.2 !! i = Some row' ∧
       models_document.id row' = models_document.id row ∧
       models_document.session_id row' = models_document.session_id row ∧
       models_document.filename row' = models_document.filename row ∧
       models_document.mime_type row' = models_document.mime_type row ∧
       models_document.file_size row' = models_document.file_size row ∧
       models_document.status row'
         = if bool_decide (models_document.id row = document_id)
           then status else models_document.status row) ∧
  ((∀ row, row ∈ documents w → models_document.id row ≠ document_id) →
     documents run.2 = documents w).
Proof.
  intros Hdb. cbv zeta. rewrite (update_status_ok _ _ _ _ Hdb).
  cbn [fst snd documents set_documents]. split_and!; [done | apply length_fmap | |].
  - intros i row Hrow. rewrite list_lookup_fmap, Hrow. eexists.
    split; [reflexivity|]. unfold document_repository.set_status.
    by destruct (bool_decide _).
  - intros Hnone. rewrite <- (list_fmap_id (documents w)) at 2.
    apply list_fmap_ext. intros i row Hrow.
    unfold document_repository.set_status.
    rewrite bool_decide_eq_false_2; [done|].
    apply Hnone. by eapply list_elem_of_lookup_2.
Qed.

Lemma X9_update_status_rows_witness :
  let run := document_repository.update_status samples.healthy (mkUUID "zz")
               indexed more_samples.world_docs in
  run.1 = Ok () ∧
  length (documents run.2) = length (documents more_samples.world_docs) ∧
  (∀ i row, documents more_samples.world_docs !! i = Some row →
     ∃ row', documents run.2 !! i = Some row' ∧
       models_document.id row' = models_document.id row ∧
       models_document.session_id row' = models_document.session_id row ∧
       models_document.filename row' = models_document.filename row ∧
       models_document.mime_type row' = models_document.mime_type row ∧
       models_document.file_size row' = models_document.file_size row ∧
       models_document.status row'
         = if bool_decide (models_document.id row = mkUUID "zz")
           then indexed else models_document.status row) ∧
  ((∀ row, row ∈ documents more_samples.world_docs →
           models_document.id row ≠ mkUUID "zz") →
     documents run.2 = documents more_samples.world_docs).
Proof.
  apply (X9_update_status_rows samples.healthy (mkUUID "zz") indexed
           more_samples.world_docs).
  reflexivity.
Defined.

(** X10. A created document can be updated through the id it was given:
    [create_document] stores a row with status pending and the arguments of
    the call, and after a successful [update_status] on the returned id the
    table holds that row with the new status and the same session, filename,
    type and size. *)
Theorem X10_create_then_update (E : Env) (session_id : UUID)
    (filename mime_type : string) (file_size : nat) (status : DocStatus)
    (w w1 w2 : World) (document : models_document.Document) :
  document_repository.create_document E session_id filename mime_type file_size w
    = (Ok document, w1) →
  document_repository.update_status E (models_document.id document) status w1
    = (Ok (), w2) →
  models_document.status document = pending ∧
  documents w1 = documents w ++ [document] ∧
  ∃ row, row ∈ documents w2 ∧
    row = models_document.mkDocument (models_document.id document) session_id
            filename mime_type file_size status.
Proof.
  unfold document_repository.create_document, document_repository.update_status.
  destruct (db_fails E (db_calls w)); [done|]. intros [= <- <-].
  cbn [db_calls tick_uuid tick_db set_documents documents models_document.id].
  destruct (db_fails E (S (db_calls w))); [done|]. intros [= <-].
  cbn [documents set_documents models_document.status].
  split_and!; [done..|]. eexists. split; [|reflexivity].
  rewrite fmap_app. apply elem_of_app. right. csimpl.
  unfold document_repository.set_status. cbn [models_document.id].
  rewrite bool_decide_eq_true_2 by done. apply list_elem_of_here.
Qed.

Lemma X10_create_then_update_witness :
  ∃ document w1 w2,
    document_repository.create_document samples.healthy samples.session_a
      "notes.txt" "text/plain" 12 samples.empty_world = (Ok document, w1) ∧
    document_repository.update_status samples.healthy (models_document.id document)
      processing w1 = (Ok (), w2) ∧
    models_document.status document = pending ∧
    documents w1 = documents samples.empty_world ++ [document] ∧
    ∃ row, row ∈ documents w2 ∧
      row = models_document.mkDocument (models_document.id document)
              samples.session_a "notes.txt" "text/plain" 12 processing.
Proof.
  eexists _, _, _. split; [reflexivity|]. split; [reflexivity|].
  eapply (X10_create_then_update samples.healthy samples.session_a "notes.txt"
            "text/plain" 12 processing samples.empty_world); reflexivity.
Defined.

(** ** The ingestion pipeline *)

Lemma supported_type_tests (mime_type : string) :
  supported_type mime_type ↔
  String.eqb mime_type "application/pdf" = true ∨
  bool_decide (mime_type ∈ ["text/plain"; "text/markdown"]) = true.
Proof.
  unfold supported_type. rewrite String.eqb_eq, bool_decide_eq_true.
  rewrite !elem_of_cons, !elem_of_nil. tauto.
Qed.

#[global] Instance reaches_index_dec E mime_type w :
  Decision (reaches_index E mime_type w).
Proof. unfold reaches_index, supported_type. apply _. Defined.

Lemma outcome_when_indexed (E : Env) (file_content : list Byte.byte)
    (filename : string) (session_id : UUID) (mime_type : string) (w : World) :
  reaches_index E mime_type w →
  ingest_outcome E file_content filename session_id mime_type w
    = if db_fails E (S (S (db_calls w)))
      then (if db_fails E (S (S (S (db_calls w))))
            then (Raise (BackendError "database"), [pending; processing],
                  stamped_chunks E file_content filename session_id mime_type w)
            else (Raise (BackendError "database"), [pending; processing; failed],
                  stamped_chunks E file_content filename session_id mime_type w))
      else (Ok (uuid4 E (uuid_calls w)), [pending; processing; indexed],
            stamped_chunks E file_content filename session_id mime_type w).
Proof.
  intros (H1 & H2 & H3 & H4 & H5 & Htype & H6 & H7).
  unfold ingest_outcome, stamped_chunks, loader_for.
  rewrite H1, H2, H3, H4, H5, H6, H7.
  apply supported_type_tests in Htype.
  destruct (String.eqb mime_type "application/pdf") eqn:Hpdf.
  - by repeat destruct (db_fails E _).
  - destruct Htype as [?|Htext]; [done|]. rewrite Htext.
    by repeat destruct (db_fails E _).
Qed.

Lemma outcome_when_not_indexed (E : Env) (file_content : list Byte.byte)
    (filename : string) (session_id : UUID) (mime_type : string) (w : World) :
  ¬ reaches_index E mime_type w →
  ∃ e log,
    ingest_outcome E file_content filename session_id mime_type w
      = (Raise e, log, []) ∧ indexed ∉ log.
Proof.
  intros Hnot. unfold reaches_index in Hnot. rewrite supported_type_tests in Hnot.
  unfold ingest_outcome.
  repeat match goal with
         | |- context [if ?b then _ else _] => destruct b eqn:?
         end;
    try (exfalso; apply Hnot; by auto 10);
    eexists _, _; (split; [reflexivity|]);
    cbn [app]; rewrite ?not_elem_of_cons, ?elem_of_nil; by auto 10.
Qed.

(** X11. Ingestion errors are never returned as success: [ingest_document]
    returns the id of the new row exactly when every step goes through, and
    then the statuses written are pending, processing, indexed; in every
    other case it raises, and indexed is not among the statuses written. *)
Theorem X11_success_iff_every_step (E : Env) (file_content : list Byte.byte)
    (filename : string) (session_id : UUID) (mime_type : string) (w : World) :
  let run := document_service.ingest_document E file_content filename
               session_id mime_type w in
  let statuses := (ingest_trace E file_content filename session_id mime_type w).*2 in
  (every_step_succeeds E mime_type w →
     run.1 = Ok (uuid4 E (uuid_calls w)) ∧
     statuses = [pending; processing; indexed]) ∧
  (¬ every_step_succeeds E mime_type w →
     (∃ e, run.1 = Raise e) ∧ indexed ∉ statuses).
Proof.
  cbv zeta. rewrite ingest_trace_outcome, fmap_snd_pair.
  destruct (ingest_document_run E file_content filename session_id mime_type w)
    as (-> & _ & _).
  split.
  - intros [Hindex Hlast]. rewrite (outcome_when_indexed _ _ _ _ _ _ Hindex), Hlast.
    done.
  - intros Hnot.
    destruct (decide (reaches_index E mime_type w)) as [Hindex|Hno].
    + rewrite (outcome_when_indexed _ _ _ _ _ _ Hindex).
      destruct (db_fails E (S (S (db_calls w)))) eqn:Hlast;
        [|exfalso; apply Hnot; by split].
      destruct (db_fails E (S (S (S (db_calls w)))));
        (split; [by eexists|]); cbn [fst snd];
        rewrite ?not_elem_of_cons, ?elem_of_nil; by auto 10.
    + destruct (outcome_when_not_indexed E file_content filename session_id
                  mime_type w Hno) as (e & log & -> & Hlog).
      split; [by eexists | done].
Qed.

Lemma X11_success_iff_every_step_witness :
  let run := document_service.ingest_document samples.healthy [] "notes.txt"
               samples.session_a "text/plain" samples.empty_world in
  let statuses := (ingest_trace samples.healthy [] "notes.txt" samples.session_a
                     "text/plain" samples.empty_world).*2 in
  run.1 = Ok (uuid4 samples.healthy (uuid_calls samples.empty_world)) ∧
  statuses = [pending; processing; indexed].
Proof.
  apply (proj1 (X11_success_iff_every_step samples.healthy [] "notes.txt"
                  samples.session_a "text/plain" samples.empty_world)).
  repeat split; try reflexivity.
  unfold supported_type. apply list_elem_of_further, list_elem_of_here.
Defined.

(** X12. The collection is not rolled back: when the chunks were inserted
    and the update to indexed then raises, [ingest_document] raises and the
    row ends failed (or stays processing, if the update to failed raises as
    well), yet every stamped chunk of the document is in the collection. *)
Theorem X12_failed_after_indexing_keeps_chunks (E : Env)
    (file_content : list Byte.byte) (filename : string) (session_id : UUID)
    (mime_type : string) (w : World) :
  reaches_index E mime_type w →
  db_fails E (S (S (db_calls w))) = true →
  let run := document_service.ingest_document E file_content filename
               session_id mime_type w in
  (∃ e, run.1 = Raise e) ∧
  embeddings run.2
    = embeddings w
        ++ stamped_chunks E file_content filename session_id mime_type w ∧
  (ingest_trace E file_content filename session_id mime_type w).*2
    = if db_fails E (S (S (S (db_calls w))))
      then [pending; processing] else [pending; processing; failed].
Proof.
  intros Hindex Hlast. cbv zeta. rewrite ingest_trace_outcome, fmap_snd_pair.
  destruct (ingest_document_run E file_content filename session_id mime_type w)
    as (-> & _ & ->).
  rewrite (outcome_when_indexed _ _ _ _ _ _ Hindex), Hlast.
  destruct (db_fails E (S (S (S (db_calls w))))); split_and!; by eauto.
Qed.

Lemma X12_failed_after_indexing_keeps_chunks_witness :
  let run := document_service.ingest_document more_samples.indexed_update_fails
               [] "notes.txt" samples.session_a "text/plain" samples.empty_world in
  (∃ e, run.1 = Raise e) ∧
  embeddings run.2
    = embeddings samples.empty_world
        ++ stamped_chunks more_samples.indexed_update_fails [] "notes.txt"
             samples.session_a "text/plain" samples.empty_world ∧
  (ingest_trace more_samples.indexed_update_fails [] "notes.txt" samples.session_a
     "text/plain" samples.empty_world).*2
    = if db_fails more_samples.indexed_update_fails
           (S (S (S (db_calls samples.empty_world))))
      then [pending; processing] else [pending; processing; failed].
Proof.
  apply (X12_failed_after_indexing_keeps_chunks more_samples.indexed_update_fails
           [] "notes.txt" samples.session_a "text/plain" samples.empty_world).
  - repeat split; try reflexivity.
    unfold supported_type. apply list_elem_of_further, list_elem_of_here.
  - reflexivity.
Defined.

(** X13. The collection gains a document's chunks all at once or not at
    all: when any step up to the insert fails (record, update to processing,
    temporary file, type check, loader, embedding or insert), the call
    raises and the collection is exactly as before. *)
Theorem X13_no_chunks_unless_inserted (E : Env) (file_content : list Byte.byte)
    (filename : string) (session_id : UUID) (mime_type : string) (w : World) :
  ¬ reaches_index E mime_type w →
  let run := document_service.ingest_document E file_content filename
               session_id mime_type w in
  (∃ e, run.1 = Raise e) ∧ embeddings run.2 = embeddings w.
Proof.
  intros Hno. cbv zeta.
  destruct (ingest_document_run E file_content filename session_id mime_type w)
    as (-> & _ & ->).
  destruct (outcome_when_not_indexed E file_content filename session_id
              mime_type w Hno) as (e & log & -> & _).
  split; [by eexists|]. cbn [snd]. by rewrite app_nil_r.
Qed.

Lemma X13_no_chunks_unless_inserted_witness :
  let run := document_service.ingest_document samples.vector_down [] "notes.txt"
               samples.session_a "text/plain" samples.world_b in
  (∃ e, run.1 = Raise e) ∧ embeddings run.2 = embeddings samples.world_b.
Proof.
  apply (X13_no_chunks_unless_inserted samples.vector_down [] "notes.txt"
           samples.session_a "text/plain" samples.world_b).
  intros (_ & _ & _ & _ & _ & _ & _ & Hvec). discriminate Hvec.
Defined.

(** *** Temporary files *)

Lemma create_document_temps E a b c d w :
  temp_files (document_repository.create_document E a b c d w).2 = temp_files w.
Proof.
  unfold document_repository.create_document. by destruct (db_fails E _).
Qed.

Lemma update_status_temps E a b w :
  temp_files (document_repository.update_status E a b w).2 = temp_files w.
Proof.
  unfold document_repository.update_status. by destruct (db_fails E _).
Qed.

Lemma load_temps E a b w :
  temp_files (document_service.load E a b w).2 = temp_files w.
Proof. unfold document_service.load. by destruct (fs_fails E _). Qed.

Lemma add_documents_temps E docs w :
  temp_files (vector_store.add_documents E docs w).2 = temp_files w.
Proof.
  unfold vector_store.add_documents, mbind, St_bind. rewrite validate_spec.
  destruct (forallb _ docs); [|done].
  unfold PGVector.aadd_documents. by destruct (vec_fails E _).
Qed.

Lemma NamedTemporaryFile_temps E filename w :
  temp_files (document_service.NamedTemporaryFile E filename w).2
    = if fs_fails E (fs_calls w) then temp_files w
      else temp_files w ++ [tmp_name E (fs_calls w) filename].
Proof.
  unfold document_service.NamedTemporaryFile. by destruct (fs_fails E _).
Qed.

Lemma write_temps E temp_file file_content w :
  temp_files (document_service.write E temp_file file_content w).2 = temp_files w.
Proof. unfold document_service.write. by destruct (fs_fails E _). Qed.

Lemma close_temps E temp_file w :
  temp_files (document_service.close E temp_file w).2 = temp_files w.
Proof. unfold document_service.close. by destruct (fs_fails E _). Qed.

Lemma unlink_quietly_temps E path w :
  temp_files (document_service.unlink_quietly E path w).2
    = if bool_decide (path ∈ temp_files w) && negb (fs_fails E (fs_calls w))
      then List.filter (λ p, negb (String.eqb p path)) (temp_files w)
      else temp_files w.
Proof.
  unfold document_service.unlink_quietly.
  destruct (bool_decide _); [|done]. by destruct (fs_fails E _).
Qed.

Ltac keep_temps lemma Heq :=
  let Ht := fresh "Htemp" in
  pose proof lemma as Ht; rewrite Heq in Ht; cbn [snd] in Ht.

Ltac ingest_call_temps :=
  let Heq := fresh "Heq" in
  match goal with
  | |- context [document_repository.create_document ?E ?a ?b ?c ?d ?w] =>
      destruct (create_document_spec E a b c d w) as (? & Heq & ?);
      keep_temps (create_document_temps E a b c d w) Heq
  | |- context [document_repository.update_status ?E ?a ?b ?w] =>
      destruct (update_status_spec E a b w) as (? & Heq & ?);
      keep_temps (update_status_temps E a b w) Heq
  | |- context [document_service.NamedTemporaryFile ?E ?a ?w] =>
      destruct (NamedTemporaryFile_spec E a w) as (? & Heq & ?);
      keep_temps (NamedTemporaryFile_temps E a w) Heq
  | |- context [document_service.write ?E ?a ?b ?w] =>
      destruct (write_spec E a b w) as (? & Heq & ?);
      keep_temps (write_temps E a b w) Heq
  | |- context [document_service.close ?E ?a ?w] =>
      destruct (close_spec E a w) as (? & Heq & ?);
      keep_temps (close_temps E a w) Heq
  | |- context [document_service.load ?E ?a ?b ?w] =>
      destruct (load_spec E a b w) as (? & Heq & ?);
      keep_temps (load_temps E a b w) Heq
  | |- context [vector_store.add_documents ?E
                  (document_service.stamp ?a ?b ?c <$> ?l) ?w] =>
      destruct (add_stamped_spec E a b c l w) as (? & Heq & ?);
      keep_temps (add_documents_temps E (document_service.stamp a b c <$> l) w) Heq
  | |- context [document_service.unlink_quietly ?E ?a ?w] =>
      destruct (unlink_quietly_spec E a w) as (? & ? & Heq & ?);
      keep_temps (unlink_quietly_temps E a w) Heq
  end;
  rewrite Heq; clear Heq; use_effect; norm_world.

Lemma filter_out_fresh (path : string) (files : list string) :
  path ∉ files →
  List.filter (λ p, negb (String.eqb p path)) (files ++ [path]) = files.
Proof.
  intros Hfresh. rewrite List.filter_app. simpl.
  rewrite String.eqb_refl. simpl. rewrite app_nil_r.
  induction files as [|p files IH]; simpl; [done|].
  apply not_elem_of_cons in Hfresh as [Hne Hfresh].
  rewrite (proj2 (String.eqb_neq p path)) by done. simpl.
  by rewrite IH.
Qed.

Lemma ingest_temp_files (E : Env) (file_content : list Byte.byte)
    (filename : string) (session_id : UUID) (mime_type : string) (w : World) :
  let path := tmp_name E (fs_calls w) filename in
  temp_files (document_service.ingest_document E file_content filename
                session_id mime_type w).2
    = if db_fails E (db_calls w) then temp_files w
      else if db_fails E (S (db_calls w)) then temp_files w
      else if fs_fails E (fs_calls w) then temp_files w
      else if fs_fails E (S (fs_calls w)) then temp_files w ++ [path]
      else if fs_fails E (unlink_call E mime_type w) then temp_files w ++ [path]
      else List.filter (λ p, negb (String.eqb p path)) (temp_files w ++ [path]).
Proof.
  unfold unlink_call,
    document_service.ingest_document, document_service.call,
    document_service.choose_loader,
    try_finally, try_except, mbind, St_bind, mret, St_ret, raise,
    document_service.lift, document_service.locals,
    document_service.set_document, document_service.set_temp_file_path.
  ingest_reduce.
  repeat (first [ingest_call_temps | ingest_branch]; ingest_reduce).
  all: repeat match goal with
              | H : temp_files ?x = _ |- context [temp_files ?x] => rewrite H
              end;
    norm_world;
    repeat match goal with
           | H : ?b = _ |- context [if ?b then _ else _] => rewrite H
           end;
    rewrite ?bool_decide_eq_true_2
      by (apply elem_of_app; right; apply list_elem_of_here);
    repeat match goal with
           | H : fs_fails ?E ?n = _ |- context [fs_fails ?E ?n] => rewrite H
           end;
    cbn [andb negb];
    repeat match goal with
           | H : ?b = _ |- context [if ?b then _ else _] => rewrite H
           end;
    try done.
Qed.

(** X14. The temporary file is released unless its write fails: a run of
    [ingest_document] creates at most the one file it is given a name for.
    When the write goes through and the removal in the [finally] block does
    not raise, that file is gone when the call ends, whether it returns or
    raises; if the name was unused before, the set of temporary files is
    exactly what it was.  When the file is created and the write raises,
    [temp_file_path] is never set, the [finally] block removes nothing and
    the file stays. *)
Theorem X14_temp_file_released (E : Env) (file_content : list Byte.byte)
    (filename : string) (session_id : UUID) (mime_type : string) (w : World) :
  let path := tmp_name E (fs_calls w) filename in
  let after := temp_files (document_service.ingest_document E file_content
                             filename session_id mime_type w).2 in
  (∀ p, p ∈ after → p ∈ temp_files w ∨ p = path) ∧
  (fs_fails E (S (fs_calls w)) = false →
   fs_fails E (unlink_call E mime_type w) = false →
   path ∉ temp_files w →
   after = temp_files w) ∧
  (db_fails E (db_calls w) = false →
   db_fails E (S (db_calls w)) = false →
   fs_fails E (fs_calls w) = false →
   fs_fails E (S (fs_calls w)) = true →
   after = temp_files w ++ [path]).
Proof.
  cbv zeta. rewrite ingest_temp_files. split_and!.
  - intros p Hp.
    assert (p ∈ temp_files w ++ [tmp_name E (fs_calls w) filename]) as Hin.
    { repeat match type of Hp with
             | context [if ?b then _ else _] => destruct b
             end;
        try (apply elem_of_app; by left); try done.
      by apply list_elem_of_In, filter_In in Hp as [Hp%list_elem_of_In _]. }
    apply elem_of_app in Hin as [Hin|Hin]; [by left|].
    right. by apply list_elem_of_singleton in Hin.
  - intros -> -> Hfresh.
    repeat match goal with
           | |- context [if ?b then _ else _] => destruct b
           end; try done.
    by apply filter_out_fresh.
  - by intros -> -> -> ->.
Qed.

Lemma X14_temp_file_released_witness :
  temp_files (document_service.ingest_document samples.vector_down [] "notes.txt"
                samples.session_a "text/plain" samples.empty_world).2
    = temp_files samples.empty_world ∧
  temp_files (document_service.ingest_document more_samples.temp_write_fails []
                "notes.txt" samples.session_a "text/plain" samples.empty_world).2
    = temp_files samples.empty_world ++ ["/tmp/notes.txt"].
Proof.
  split.
  - apply (proj1 (proj2 (X14_temp_file_released samples.vector_down [] "notes.txt"
                           samples.session_a "text/plain" samples.empty_world)));
      [reflexivity | reflexivity |].
    apply not_elem_of_nil.
  - apply (proj2 (proj2 (X14_temp_file_released more_samples.temp_write_fails []
                           "notes.txt" samples.session_a "text/plain"
                           samples.empty_world))); reflexivity.
Defined.

(** ** Stamping and the gateway *)

(** X15. Stamping a chunk changes three metadata keys and nothing else: the
    text and every other key (such as the loader's source or page) are kept,
    and stamping again replaces an earlier stamp, so the last session id,
    document id and filename written are the ones the entry carries. *)
Theorem X15_stamp_keeps_the_rest (s1 d1 s2 d2 : UUID) (f1 f2 : string)
    (chunk : langchain.Document) :
  page_content (document_service.stamp s1 d1 f1 chunk) = page_content chunk ∧
  (∀ key, key ∉ ["session_id"; "document_id"; "filename"] →
          metadata (document_service.stamp s1 d1 f1 chunk) !! key
            = metadata chunk !! key) ∧
  document_service.stamp s2 d2 f2 (document_service.stamp s1 d1 f1 chunk)
    = document_service.stamp s2 d2 f2 chunk.
Proof.
  split; [done|]. split.
  - intros key Hkey. cbn [document_service.stamp metadata].
    rewrite !not_elem_of_cons in Hkey. destruct Hkey as (? & ? & ? & _).
    by rewrite !lookup_insert_ne.
  - unfold document_service.stamp. cbn [page_content metadata]. f_equal.
    apply map_eq. intros key.
    destruct (decide (key = "session_id")) as [->|];
      [by rewrite !lookup_insert_eq|].
    rewrite (lookup_insert_ne _ "session_id"), (lookup_insert_ne _ "session_id") by done.
    destruct (decide (key = "document_id")) as [->|];
      [by rewrite !lookup_insert_eq|].
    rewrite (lookup_insert_ne _ "document_id"), (lookup_insert_ne _ "document_id") by done.
    destruct (decide (key = "filename")) as [->|];
      [by rewrite !lookup_insert_eq|].
    by rewrite !lookup_insert_ne.
Qed.

#[global] Instance closer_total E query : Total (PGVector.closer E query).
Proof. intros a b. unfold PGVector.closer. lia. Qed.

#[global] Instance closer_transitive E query : Transitive (PGVector.closer E query).
Proof. intros a b c. unfold PGVector.closer. lia. Qed.

(** X16. [similarity_search] is a read: it returns a list and leaves the
    collection as it was, whether the backend raises or not.  The list has at
    most [k] entries, all stored entries, closest to the query first; when
    the backend answers, it has [min k n] entries for [n] the number of
    stored entries of the session. *)
Theorem X16_search_is_a_bounded_read (E : Env) (query : string)
    (session_id : UUID) (k : nat) (w : World) :
  ∃ results w',
    vector_store.similarity_search E query session_id k w = (Ok results, w') ∧
    embeddings w' = embeddings w ∧
    (length results ≤ k)%nat ∧
    (∀ d, d ∈ results → d ∈ embeddings w) ∧
    Sorted (PGVector.closer E query) results ∧
    (vec_fails E (vec_calls w) = false →
       length results
         = min k (length (List.filter
                            (PGVector.matches {[ "session_id" := str session_id ]})
                            (embeddings w)))).
Proof.
  rewrite similarity_search_run. eexists _, _. split; [reflexivity|].
  split; [done|].
  destruct (vec_fails E (vec_calls w)).
  { split_and!; [simpl; lia | by intros d Hd%elem_of_nil | constructor | done]. }
  split_and!.
  - rewrite length_take. lia.
  - intros d Hd. by apply ranked_elem_of in Hd as [_ Hd].
  - apply StronglySorted_Sorted.
    apply (StronglySorted_app_1_l _ _ (drop k (merge_sort (PGVector.closer E query)
             (List.filter (PGVector.matches {[ "session_id" := str session_id ]})
                          (embeddings w))))).
    rewrite take_drop. apply StronglySorted_merge_sort; apply _.
  - intros _.
    by rewrite length_take, (Permutation_length (merge_sort_Permutation _ _)).
Qed.

(** X17. Batches accumulate in order: after two successful [add_documents]
    calls the collection is the old content followed by the first batch and
    then the second, which is also what one successful call with the two
    batches concatenated leaves. *)
Theorem X17_batches_accumulate (E : Env) (first second : list langchain.Document)
    (w w1 w2 w3 : World) :
  vector_store.add_documents E first w = (Ok (), w1) →
  vector_store.add_documents E second w1 = (Ok (), w2) →
  vector_store.add_documents E (first ++ second) w = (Ok (), w3) →
  embeddings w2 = embeddings w ++ first ++ second ∧
  embeddings w3 = embeddings w2.
Proof.
  intros H1 H2 H3.
  apply add_documents_ok in H1 as [H1 _].
  apply add_documents_ok in H2 as [H2 _].
  apply add_documents_ok in H3 as [H3 _].
  rewrite H2, H1, H3. by rewrite app_assoc.
Qed.

Lemma X17_batches_accumulate_witness :
  embeddings (vector_store.add_documents samples.healthy [samples.chunk_b]
                (vector_store.add_documents samples.healthy [samples.chunk_a]
                   samples.empty_world).2).2
    = embeddings samples.empty_world ++ [samples.chunk_a] ++ [samples.chunk_b] ∧
  embeddings (vector_store.add_documents samples.healthy
                ([samples.chunk_a] ++ [samples.chunk_b]) samples.empty_world).2
    = embeddings (vector_store.add_documents samples.healthy [samples.chunk_b]
                    (vector_store.add_documents samples.healthy [samples.chunk_a]
                       samples.empty_world).2).2.
Proof.
  apply (X17_batches_accumulate samples.healthy [samples.chunk_a] [samples.chunk_b]
           samples.empty_world
           (vector_store.add_documents samples.healthy [samples.chunk_a]
              samples.empty_world).2);
    vm_compute; reflexivity.
Defined.

(** X18. An empty batch is not short-circuited: [add_documents] passes the
    validation, still calls the backend once, and raises exactly when that
    call raises; the collection is unchanged either way. *)
Theorem X18_empty_batch_reaches_backend (E : Env) (w : World) :
  let run := vector_store.add_documents E [] w in
  vec_calls run.2 = S (vec_calls w) ∧
  embeddings run.2 = embeddings w ∧
  (run.1 = Ok () ↔ vec_fails E (vec_calls w) = false).
Proof.
  cbv zeta. unfold vector_store.add_documents, mbind, St_bind.
  rewrite validate_spec. cbn [forallb]. unfold PGVector.aadd_documents.
  destruct (vec_fails E (vec_calls w)); cbn [fst snd vec_calls embeddings
    tick_vec set_embeddings]; rewrite ?app_nil_r; split_and!; try done.
Qed.

(** ** The routes *)

Lemma generate_response_returns (E : Env) (session_id : UUID)
    (user_message : string) (w : World) :
  ∃ reply w',
    chat_service.generate_response E session_id user_message w = (Ok reply, w').
Proof.
  destruct (chat_service.generate_response E session_id user_message w)
    as [r w'] eqn:Hrun.
  chat_cases Hrun; by eexists _, _.
Qed.

(** X19. The chat route never answers 500: for every request and every
    behaviour of the collaborators it returns a response carrying the
    session id of the request and the string [generate_response] returned;
    the handler that turns an exception into HTTP 500 is never entered. *)
Theorem X19_chat_route_always_answers (E : Env)
    (exception_text : Exception → string) (session_id : UUID)
    (request : schemas_chat.ChatRequest.t) (w : World) :
  ∃ reply w',
    chat_service.generate_response E session_id
      (schemas_chat.ChatRequest.message request) w = (Ok reply, w') ∧
    chat_route.chat E exception_text session_id request w
      = (Ok (schemas_chat.ChatResponse.mk session_id reply), w').
Proof.
  destruct (generate_response_returns E session_id
              (schemas_chat.ChatRequest.message request) w)
    as (reply & w' & Hrun).
  exists reply, w'. split; [exact Hrun|].
  unfold chat_route.chat, try_except, mbind, St_bind. by rewrite Hrun.
Qed.

(** X20. The upload route accepts exactly application/pdf and text/plain.
    For those it answers with the acceptance message, the filename and the
    session id whatever the scheduled ingestion does: an ingestion that
    raises does not turn the answer into an error, and the state after the
    call is the state the ingestion left.  Every other declared type is
    answered with HTTP 400 and changes nothing. *)
Theorem X20_upload_accepts_and_answers (E : Env) (session_id : UUID)
    (file : upload.UploadFile) (w : World) :
  let accepted := upload.content_type file = "application/pdf" ∨
                  upload.content_type file = "text/plain" in
  (accepted →
   upload.upload_document E session_id file w
     = (Ok (upload.mkDocumentResponse
              "Document upload accepted. Processing in background."
              (upload.filename file) session_id),
        (document_service.ingest_document E (upload.content file)
           (upload.filename file) session_id (upload.content_type file) w).2)) ∧
  (¬ accepted →
   ∃ detail,
     upload.upload_document E session_id file w
       = (Raise (HTTPException 400 detail), w)).
Proof.
  cbv zeta. unfold upload.upload_document. split.
  - intros Htype. rewrite bool_decide_eq_true_2.
    2:{ unfold upload.allowed_types. rewrite !elem_of_cons. tauto. }
    unfold try_except, mbind, St_bind.
    by destruct (document_service.ingest_document E _ _ _ _ w) as [[id|e] w1].
  - intros Htype. rewrite bool_decide_eq_false_2; [by eexists|].
    unfold upload.allowed_types. rewrite !elem_of_cons, elem_of_nil. tauto.
Qed.

Lemma X20_upload_accepts_and_answers_witness :
  upload.upload_document samples.vector_down samples.session_a
    (upload.mkUploadFile "notes.txt" "text/plain" []) samples.empty_world
  = (Ok (upload.mkDocumentResponse
           "Document upload accepted. Processing in background."
           "notes.txt" samples.session_a),
     (document_service.ingest_document samples.vector_down [] "notes.txt"
        samples.session_a "text/plain" samples.empty_world).2).
Proof.
  apply (proj1 (X20_upload_accepts_and_answers samples.vector_down
                  samples.session_a
                  (upload.mkUploadFile "notes.txt" "text/plain" [])
                  samples.empty_world)).
  right. reflexivity.
Defined.

(** X21. The vector repository is a singleton that is built lazily: once a
    call of [get_vector_repo] has returned a repository, every later call
    returns that same repository and constructs nothing; a construction that
    raises is not remembered, so the next call tries again. *)
Theorem X21_vector_repo_singleton {Repository : Type}
    (VectorStoreRepository : nat → Result Repository)
    (g g1 : dependencies.Globals) (calls : nat) :
  (∀ repo,
     dependencies.get_vector_repo VectorStoreRepository g = (Ok repo, g1) →
     Nat.iter calls
       (λ g', (dependencies.get_vector_repo VectorStoreRepository g').2) g1 = g1 ∧
     dependencies.get_vector_repo VectorStoreRepository g1 = (Ok repo, g1)) ∧
  (∀ e,
     dependencies.get_vector_repo VectorStoreRepository g = (Raise e, g1) →
     dependencies._vector_repo g1 = None ∧
     dependencies.constructions g1 = S (dependencies.constructions g)).
Proof.
  unfold dependencies.get_vector_repo. split.
  - intros repo Hcall.
    assert (dependencies._vector_repo g1 = Some repo) as Hset.
    { destruct (dependencies._vector_repo g) eqn:Hg.
      - by injection Hcall as -> <-.
      - destruct (VectorStoreRepository _); [|done]. by injection Hcall as -> <-. }
    split; [|by rewrite Hset].
    induction calls as [|calls IH]; simpl; [done|]. rewrite IH. by rewrite Hset.
  - intros e Hcall. destruct (dependencies._vector_repo g); [done|].
    destruct (VectorStoreRepository _); [done|]. by injection Hcall as _ <-.
Qed.

(** ** Isolation, end to end *)

(** X22. The prompt of a chat turn is built from the session's own data
    only: the context is joined from retrieved entries that are stored under
    the session id of the request, and every history entry handed to
    [_build_messages] is a stored message of that session (the one just
    appended included).  Nothing indexed or said under another session id
    reaches the request. *)
Theorem X22_prompt_uses_own_session_only (E : Env) (session_id : UUID)
    (user_message : string) (w : World) :
  db_fails E (db_calls w) = false →
  db_fails E (S (db_calls w)) = false →
  ∃ docs history later,
    llm_requests (chat_service.generate_response E session_id user_message w).2
      = llm_requests w
          ++ chat_service._build_messages user_message
               (chat_service.build_context docs) history :: later ∧
    Forall (λ d, d ∈ embeddings w ∧
                 metadata d !! "session_id" = Some (str session_id)) docs ∧
    Forall (λ item, ∃ msg,
              item = chat_repository.to_dict msg ∧
              models_message.session_id msg = session_id ∧
              (msg ∈ chat_messages w ∨
               models_message.content msg = user_message)) history.
Proof.
  intros Hadd Hread.
  destruct (chat_service.generate_response E session_id user_message w)
    as [r w'] eqn:Hrun.
  run_chat Hrun. rewrite Hadd in Hrun. run_chat Hrun. rewrite Hread in Hrun.
  run_chat Hrun.
  cbn [embeddings tick_db tick_uuid set_chat_messages] in Hrun.
  chat_cases Hrun; chat_fields; rewrite <- ?app_assoc;
    eexists _, _, _; (split; [reflexivity|]);
    (split;
      [ apply Forall_forall; intros d Hd;
        destruct (vec_fails E (vec_calls w)); [by apply elem_of_nil in Hd|];
        apply ranked_elem_of in Hd as [Hm Hd]; apply matches_session in Hm; done
      | apply Forall_forall; intros item Hitem;
        apply list_elem_of_fmap in Hitem as (msg & -> & Hmsg);
        rewrite elem_of_reverse in Hmsg;
        apply select_recent_elem_of in Hmsg as [Hmsg Hs];
        exists msg; (split; [done|]); (split; [done|]);
        apply elem_of_app in Hmsg as [Hmsg|Hmsg]; [by left|];
        apply list_elem_of_singleton in Hmsg; right; by rewrite Hmsg ]).
Qed.

Lemma X22_prompt_uses_own_session_only_witness :
  ∃ docs history later,
    llm_requests (chat_service.generate_response samples.healthy
                    samples.session_b "hi" samples.world_b).2
      = llm_requests samples.world_b
          ++ chat_service._build_messages "hi"
               (chat_service.build_context docs) history :: later ∧
    Forall (λ d, d ∈ embeddings samples.world_b ∧
                 metadata d !! "session_id" = Some (str samples.session_b)) docs ∧
    Forall (λ item, ∃ msg,
              item = chat_repository.to_dict msg ∧
              models_message.session_id msg = samples.session_b ∧
              (msg ∈ chat_messages samples.world_b ∨
               models_message.content msg = "hi")) history.
Proof.
  apply (X22_prompt_uses_own_session_only samples.healthy samples.session_b "hi"
           samples.world_b); reflexivity.
Defined.
